(** * persona_interest_controller: the history store and the interest analyzer

    A shallow embedding of [main.py] (class [PersonaInterestPlugin]):
    the in-memory history cache with its durable JSON file, the analysis
    pipeline run on every LLM request, the reply recorder and the two
    administrative commands.

    Python values are modelled as follows.
    - [str] is [string], a text standing by its UTF-8 bytes and a lone
      surrogate by the three bytes of its generalised encoding; truthiness
      of a string is non-emptiness.
    - the history cache [Dict[str, list]] is a [gmap string (list turn)].
    - JSON values are the inductive [jvalue]; the [json] module is an
      interface ([PyLib]) since it is a library, not part of the plugin.
    - [random.random()] and [random_reply_chance] are rationals: every finite
      binary64 value is a rational and the comparison is the same.
    - coroutines are run to completion; the points where the source acquires
      and releases [history_lock], touches the cache or the file, or calls
      the provider are recorded, in order, in the [effects] of the world. *)

From Stdlib Require Import ZArith QArith Ascii String List Bool Lia DecimalString.
From Stdlib Require DecimalFacts DecimalPos DecimalZ.
From stdpp Require Import gmap strings list fin_maps.

Set Warnings "-register-all".

Local Open Scope string_scope.
Local Open Scope Z_scope.
Local Open Scope list_scope.

(** ** Python primitives used by the plugin *)

Module Py.

(** [bool(s)] for a [str]. *)
Definition truthy_str (s : string) : bool :=
  match s with EmptyString => false | String _ _ => true end.

(** [a or b] on strings. *)
Definition or_str (a b : string) : string :=
  if truthy_str a then a else b.

(** [a or b] where [a] may be [None]. *)
Definition or_opt (a : option string) (b : string) : string :=
  match a with
  | Some s => or_str s b
  | None => b
  end.

(** [str(x)] for an optional string, as an f-string renders it. *)
Definition str_opt (a : option string) : string :=
  match a with
  | Some s => s
  | None => "None"
  end.

(** Normalisation of a slice bound [k] against a sequence of length [n]:
    negative bounds count from the end, and the result is clamped. *)
Definition slice_index (n : nat) (k : Z) : nat :=
  if k <? 0 then Z.to_nat (Z.max (Z.of_nat n + k) 0)
  else Nat.min (Z.to_nat k) n.

(** [l[k:]] *)
Definition slice_from {A} (k : Z) (l : list A) : list A :=
  drop (slice_index (length l) k) l.

(** [l[:k]] *)
Definition slice_to {A} (k : Z) (l : list A) : list A :=
  take (slice_index (length l) k) l.

(** [sep.join(parts)] *)
Fixpoint join (sep : string) (parts : list string) : string :=
  match parts with
  | [] => ""
  | [p] => p
  | p :: rest => p +:+ sep +:+ join sep rest
  end.

(** [s.startswith(p)] *)
Fixpoint startswith (p s : string) : bool :=
  match p, s with
  | EmptyString, _ => true
  | String a p', String b s' => if Ascii.eqb a b then startswith p' s' else false
  | String _ _, EmptyString => false
  end.

(** [s.replace(old, new)] for a non-empty [old]: occurrences are replaced
    from the left and do not overlap. [skip] counts the characters of the
    occurrence just replaced that are still to be passed over. *)
Fixpoint replace_from (old new : string) (skip : nat) (s : string) : string :=
  match s with
  | EmptyString => ""
  | String c t =>
      match skip with
      | S k => replace_from old new k t
      | O =>
          if startswith old s
          then new +:+ replace_from old new (Nat.pred (String.length old)) t
          else String c (replace_from old new O t)
      end
  end.

Definition replace (old new s : string) : string :=
  replace_from old new O s.

(** Whether [text.encode("utf-8")] succeeds: strict UTF-8 refuses a
    surrogate, whose generalised encoding is the byte 237 followed by a
    byte from 160 on. *)
Fixpoint utf8_ok (s : string) : bool :=
  match s with
  | EmptyString => true
  | String c t =>
      match t with
      | EmptyString => true
      | String d _ =>
          if ((N_of_ascii c =? 237) && (160 <=? N_of_ascii d))%N
          then false
          else utf8_ok t
      end
  end.

(** What a file opened with ["w"] and [encoding="utf-8"] holds after
    [write(text)]: opening has emptied it, and the write raises without
    writing anything when the text cannot be encoded. *)
Definition write_utf8 (text : string) : string :=
  if utf8_ok text then text else EmptyString.

End Py.

(** ** The regular expression [r"\{.*\}"] with [re.DOTALL] *)

Module Re.

Definition lbrace : ascii := "{"%char.
Definition rbrace : ascii := "}"%char.

(** [.*\}] anchored at the start of [s]: the star is greedy, so the
    matcher first lets [.] take the next character and only when the rest
    cannot be matched tries to end the match on a closing brace here. *)
Fixpoint match_rest (s : string) : option string :=
  match s with
  | EmptyString => None
  | String c t =>
      match match_rest t with
      | Some m => Some (String c m)
      | None => if Ascii.eqb c rbrace then Some (String c "") else None
      end
  end.

(** [re.search(r"\{.*\}", s, re.DOTALL)] followed by [.group(0)]: the
    leftmost position where the pattern matches. *)
Fixpoint search (s : string) : option string :=
  match s with
  | EmptyString => None
  | String c t =>
      if Ascii.eqb c lbrace
      then match match_rest t with
           | Some m => Some (String c m)
           | None => search t
           end
      else search t
  end.

End Re.

(** ** JSON values and the library interface *)

(** The values [json.loads] returns and [json.dumps] accepts. Numbers are
    the integers: a number with a fraction or an exponent, [NaN] and the
    infinities have no value here, so what is proved speaks of answers
    and logs without them. An object keeps its members in document
    order. *)
Inductive jvalue : Type :=
  | JNull
  | JBool (b : bool)
  | JInt (z : Z)
  | JStr (s : string)
  | JArr (items : list jvalue)
  | JObj (members : list (string * jvalue)).

(** What the plugin takes from Python's library: the [json] codec and the
    [repr] of a string, which [str()] of a list or a dict is built from. *)
Class PyLib := {
  json_loads : string -> option jvalue;   (* [None]: the call raises *)
  json_dumps : jvalue -> string;          (* [indent=2, ensure_ascii=False] *)
  repr_str : string -> string
}.

(** The codec reads back what it wrote. *)
Class JsonRoundTrip (L : PyLib) : Prop :=
  loads_dumps : forall v : jvalue, json_loads (json_dumps v) = Some v.

Module Json.

(** [bool(v)] *)
Definition truthy (v : jvalue) : bool :=
  match v with
  | JNull => false
  | JBool b => b
  | JInt z => negb (z =? 0)
  | JStr s => Py.truthy_str s
  | JArr items => match items with [] => false | _ :: _ => true end
  | JObj members => match members with [] => false | _ :: _ => true end
  end.

(** [d.get(key)] on the members of an object; of two members with the
    same key the later one is the one a [dict] holds. *)
Fixpoint get (key : string) (members : list (string * jvalue)) : option jvalue :=
  match members with
  | [] => None
  | (k, v) :: rest =>
      match get key rest with
      | Some v' => Some v'
      | None => if String.eqb k key then Some v else None
      end
  end.

(** [d.get(key, default)] *)
Definition get_default (key : string) (dflt : jvalue)
    (members : list (string * jvalue)) : jvalue :=
  match get key members with
  | Some v => v
  | None => dflt
  end.

Definition str_of_Z (z : Z) : string :=
  NilZero.string_of_int (Z.to_int z).

Section Format.
Context {L : PyLib}.

(** [repr(v)] *)
Fixpoint repr (v : jvalue) : string :=
  match v with
  | JNull => "None"
  | JBool true => "True"
  | JBool false => "False"
  | JInt z => str_of_Z z
  | JStr s => repr_str s
  | JArr items => "[" +:+ Py.join ", " (map repr items) +:+ "]"
  | JObj members =>
      "{" +:+ Py.join ", "
               (map (fun kv => repr_str (fst kv) +:+ ": " +:+ repr (snd kv)) members)
          +:+ "}"
  end.

(** [str(v)], what an f-string field renders. *)
Definition str (v : jvalue) : string :=
  match v with
  | JStr s => s
  | _ => repr v
  end.
End Format.

End Json.

(** ** Data model *)

(** The [state] attached to an assistant turn. *)
Record emotion := Emotion {
  interest : jvalue;
  feeling : jvalue
}.

(** One entry of a session's log: the dict the plugin appends. The sender
    fields and the state are the keys a dict may lack. *)
Record turn := Turn {
  role : string;
  sender_id : option string;
  sender_name : option string;
  content : string;
  state : option emotion
}.

(** [self.config], read with [config.get(key, default)]. *)
Record config := Config {
  whitelist : option (list string);
  analysis_provider_id : option string;
  analysis_system_prompt : option string;
  history_max_length : option Z;
  random_reply_chance : option Q;
  record_emotion_in_history : option bool
}.

(** [AstrMessageEvent]: what the plugin reads from it, and the two things
    it writes ([stop_event], [set_extra]). *)
Record event := Event {
  get_group_id : string;
  get_sender_id : string;
  get_sender_name : string;
  get_platform_name : string;
  unified_msg_origin : string;
  is_at_or_wake_command : bool;
  is_stopped : bool;
  pic_emotion_data : option emotion
}.

(** [ProviderRequest] *)
Record request := Request {
  prompt : option string;
  system_prompt : string
}.

(** [LLMResponse] *)
Record response := Response {
  completion_text : string
}.

(** A conversation and a persona as the host's managers hand them out. *)
Record conversation := Conversation {
  persona_id : option string
}.

Record persona := Persona {
  persona_name : option string;
  persona_prompt : option string
}.

(** An analysis provider: [text_chat(prompt=...)] and the
    [completion_text] of its answer; [None] when the call raises. *)
Definition provider := string -> option string.

(** [self.context] *)
Record context := MkContext {
  get_curr_conversation_id : string -> option string;
  get_conversation : string -> string -> option conversation;
  selected_default_persona : option string;
  personas : list persona;
  get_provider_by_id : string -> option provider
}.

(** What an operation does to the store and its surroundings, in order. *)
Inductive effect : Type :=
  | LockAcquire
  | LockRelease
  | CacheRead (session_id : string)
  | CacheAppend (session_id : string)
  | CacheDelete (session_id : string)
  | CacheTrim
  | CacheReplace
  | FileRead
  | FileWrite
  | ProviderCall (analysis_prompt : string).

(** The plugin's state: the cache, the history file ([None]: it does not
    exist), whether opening the file succeeds, and the effects so far. A
    write fails after the file was opened when the text cannot be encoded
    ([Py.write_utf8]); a device that fails in the middle of a write is not
    modelled. *)
Record world := World {
  history_cache : gmap string (list turn);
  history_file : option string;
  disk_ok : bool;
  effects : list effect
}.

Definition emit (e : effect) (w : world) : world :=
  World (history_cache w) (history_file w) (disk_ok w) (effects w ++ [e]).

Definition with_cache (h : gmap string (list turn)) (w : world) : world :=
  World h (history_file w) (disk_ok w) (effects w).

Definition with_file (doc : string) (w : world) : world :=
  World (history_cache w) (Some doc) (disk_ok w) (effects w).

(** ** The history document *)

(** The cache as the JSON value [json.dumps] is given, and back. A turn is
    the dict the plugin builds, its keys in the order the dict literal
    lists them. The sessions come in the order of the map, which need not
    be the order in which the dict got them: the text of the file can
    differ in that order, the value it decodes to does not. *)
Module Doc.

Definition json_of_emotion (e : emotion) : jvalue :=
  JObj [("interest", interest e); ("feeling", feeling e)].

Definition field (key : string) (v : option string) : list (string * jvalue) :=
  match v with
  | Some s => [(key, JStr s)]
  | None => []
  end.

Definition json_of_turn (t : turn) : jvalue :=
  JObj ([("role", JStr (role t))]
        ++ field "sender_id" (sender_id t)
        ++ field "sender_name" (sender_name t)
        ++ [("content", JStr (content t))]
        ++ match state t with
           | Some e => [("state", json_of_emotion e)]
           | None => []
           end).

Definition json_of_log (log : list turn) : jvalue :=
  JArr (map json_of_turn log).

Definition json_of_history (h : gmap string (list turn)) : jvalue :=
  JObj (map (fun kv => (fst kv, json_of_log (snd kv))) (map_to_list h)).

Definition string_of_json (v : jvalue) : option string :=
  match v with
  | JStr s => Some s
  | _ => None
  end.

Definition optional_field (key : string) (members : list (string * jvalue))
    : option (option string) :=
  match Json.get key members with
  | None => Some None
  | Some v => Some <$> string_of_json v
  end.

Definition emotion_of_json (v : jvalue) : option emotion :=
  match v with
  | JObj members =>
      i ← Json.get "interest" members;
      f ← Json.get "feeling" members;
      Some (Emotion i f)
  | _ => None
  end.

Definition turn_of_json (v : jvalue) : option turn :=
  match v with
  | JObj members =>
      r ← Json.get "role" members ≫= string_of_json;
      sid ← optional_field "sender_id" members;
      sname ← optional_field "sender_name" members;
      c ← Json.get "content" members ≫= string_of_json;
      st ← match Json.get "state" members with
           | None => Some None
           | Some v => Some <$> emotion_of_json v
           end;
      Some (Turn r sid sname c st)
  | _ => None
  end.

Definition log_of_json (v : jvalue) : option (list turn) :=
  match v with
  | JArr items => mapM turn_of_json items
  | _ => None
  end.

(** The members of the document become the cache, a later member
    replacing an earlier one of the same session. *)
Fixpoint history_of_members (members : list (string * jvalue))
    (acc : gmap string (list turn)) : option (gmap string (list turn)) :=
  match members with
  | [] => Some acc
  | (k, v) :: rest =>
      match log_of_json v with
      | Some log => history_of_members rest (<[k := log]> acc)
      | None => None
      end
  end.

Definition history_of_json (v : jvalue) : option (gmap string (list turn)) :=
  match v with
  | JObj members => history_of_members members ∅
  | _ => None
  end.

End Doc.

(** ** The plugin *)

Definition nl : string := String "010"%char EmptyString.
Definition dquote : string := String "034"%char EmptyString.

(** [a > b] on the numbers of the random gate. *)
Definition Qgtb (a b : Q) : bool := negb (Qle_bool a b).

Section Plugin.
Context {L : PyLib}.
Variable cfg : config.

(** [_load_history]: under the lock, an existing file replaces the cache
    with what it decodes to; a file that cannot be opened or decoded is
    logged and the cache stays. A document that is well-formed JSON but
    not a mapping from session ids to lists of turns has no counterpart
    in the typed cache and is treated as one that fails to decode. *)
Definition _load_history (w : world) : world :=
  let w := emit LockAcquire w in
  let w :=
    match history_file w with
    | Some text =>
        if disk_ok w then
          let w := emit FileRead w in
          match json_loads text ≫= Doc.history_of_json with
          | Some h => emit CacheReplace (with_cache h w)
          | None => w
          end
        else w
    | None => w
    end in
  emit LockRelease w.

(** [__init__]: an empty cache, then the load task. *)
Definition init (file : option string) (disk : bool) : world :=
  _load_history (World ∅ file disk []).

(** [_save_history]: under the lock, every session's log is cut by the
    slice [[-max_len:]], then the whole cache is written over the file.
    A failure to open the file is logged and the file stays; a text that
    cannot be encoded makes the write raise after the file was emptied,
    which is logged too. *)
Definition _save_history (w : world) : world :=
  let w := emit LockAcquire w in
  let max_len := default 20 (history_max_length cfg) in
  let w := emit CacheTrim
             (with_cache (Py.slice_from (- max_len) <$> history_cache w) w) in
  let w :=
    if disk_ok w
    then emit FileWrite
           (with_file
              (Py.write_utf8 (json_dumps (Doc.json_of_history (history_cache w)))) w)
    else w in
  emit LockRelease w.

(** [_get_current_persona_prompt]; every failure yields the empty string. *)
Definition _get_current_persona_prompt (ctx : context) (ev : event) : string :=
  let uid := unified_msg_origin ev in
  match get_curr_conversation_id ctx uid with
  | None => ""
  | Some curr_cid =>
      if negb (Py.truthy_str curr_cid) then "" else
      match get_conversation ctx uid curr_cid with
      | None => ""
      | Some conv =>
          let target_persona_name :=
            match persona_id conv with
            | Some pid =>
                if Py.truthy_str pid then
                  if String.eqb pid "[%None]" then None else Some pid
                else selected_default_persona ctx
            | None => selected_default_persona ctx
            end in
          match target_persona_name with
          | None => ""
          | Some name =>
              if negb (Py.truthy_str name) then "" else
              match List.find
                      (fun p => bool_decide (persona_name p = Some name))
                      (personas ctx) with
              | Some p => default "" (persona_prompt p)
              | None => ""
              end
          end
      end
  end.

(** [event.get_group_id() or event.get_sender_id()] *)
Definition subject_id (ev : event) : string :=
  Py.or_str (get_group_id ev) (get_sender_id ev).

Definition whitelisted (ev : event) : bool :=
  bool_decide (subject_id ev ∈ default [] (whitelist cfg)).

(** [req.prompt or "User sent an empty or non-text message."] *)
Definition current_message (req : request) : string :=
  Py.or_opt (prompt req) "User sent an empty or non-text message.".

Definition user_history_entry (ev : event) (req : request) : turn :=
  {| role := "user";
     sender_id := Some (get_sender_id ev);
     sender_name := Some (get_sender_name ev);
     content := if is_at_or_wake_command ev
                then "[Direct Mention] " +:+ current_message req
                else current_message req;
     state := None |}.

(** [self.history_cache.setdefault(session_id, []).append(entry)] *)
Definition append_turn (session_id : string) (entry : turn) (w : world) : world :=
  emit (CacheAppend session_id)
    (with_cache
       (<[session_id :=
            (default [] (history_cache w !! session_id) ++ [entry])%list]>
          (history_cache w)) w).

Definition format_history_entry (msg : turn) : string :=
  if String.eqb (role msg) "user"
  then "user (" +:+ default "unknown" (sender_name msg) +:+ "/"
       +:+ default "0" (sender_id msg) +:+ "): " +:+ content msg
  else "assistant: " +:+ content msg.

Definition format_history (history_for_analysis : list turn) : string :=
  Py.or_str (Py.join nl (map format_history_entry history_for_analysis))
            "No previous conversation history.".

Definition awakening_context_str (ev : event) : string :=
  if is_at_or_wake_command ev
  then "IMPORTANT CONTEXT: The user has directly awakened you..."
  else "".

(** The four [replace] calls on the template, in the order of the source. *)
Definition render_prompt (template awakening persona_description
    formatted_history current_message_for_analysis : string) : string :=
  Py.replace "{current_message}" current_message_for_analysis
    (Py.replace "{history}" formatted_history
       (Py.replace "{persona}" persona_description
          (Py.replace "{awakening_context}" awakening template))).

Definition stop_event (ev : event) : event :=
  Event (get_group_id ev) (get_sender_id ev) (get_sender_name ev)
        (get_platform_name ev) (unified_msg_origin ev)
        (is_at_or_wake_command ev) true (pic_emotion_data ev).

Definition set_extra (e : emotion) (ev : event) : event :=
  Event (get_group_id ev) (get_sender_id ev) (get_sender_name ev)
        (get_platform_name ev) (unified_msg_origin ev)
        (is_at_or_wake_command ev) (is_stopped ev) (Some e).

(** The second, final assignment of [injection_wrapper]. *)
Definition injection_wrapper (req : request) (e : emotion) : string :=
  "User's message is: " +:+ dquote +:+ Py.str_opt (prompt req) +:+ dquote
  +:+ nl +:+ nl
  +:+ "[[System Note: Your current state is - Interest: '"
  +:+ Json.str (interest e) +:+ "', Feeling: '" +:+ Json.str (feeling e)
  +:+ "'. You MUST respond according to this state.]]".

Definition with_prompt (p : string) (req : request) : request :=
  Request (Some p) (system_prompt req).

(** Lines 128-132: the text from the first opening brace the pattern can
    start at to the last closing brace is decoded. [None] stands for both
    ways of having no verdict: the pattern does not match (the handler
    returns), or the decoding or the use of its result as a dict raises
    (the handler's [except] logs it). *)
Definition parse_verdict (response_text : string)
    : option (list (string * jvalue)) :=
  match Re.search response_text with
  | None => None
  | Some json_str =>
      match json_loads json_str with
      | Some (JObj analysis_result) => Some analysis_result
      | _ => None
      end
  end.

(** [self.history_cache[session_id][:-1]] *)
Definition history_for_analysis (session_id : string) (w : world) : list turn :=
  Py.slice_to (-1) (default [] (history_cache w !! session_id)).

(** Lines 78-88, the three gates before any work is done: the subject is
    on the allow-list, the platform is the supported one, and a provider
    is configured and found. *)
Definition active_provider (ctx : context) (ev : event) : option provider :=
  if negb (whitelisted ev) then None else
  if negb (String.eqb (get_platform_name ev) "aiocqhttp") then None else
  match analysis_provider_id cfg with
  | None => None
  | Some provider_id =>
      if negb (Py.truthy_str provider_id) then None
      else get_provider_by_id ctx provider_id
  end.

(** Lines 128-158: what the handler does with the provider's answer.
    [draw] is the value [random.random()] returns when it is called. *)
Definition apply_verdict (draw : Q) (ev : event) (req : request) (w : world)
    (response_text : string) : world * event * request :=
  match parse_verdict response_text with
  | None => (w, ev, req)
  | Some analysis_result =>
      if negb (Json.truthy
                 (Json.get_default "should_reply" (JBool true) analysis_result))
      then (_save_history w, stop_event ev, req)
      else
        let reply_chance := default 1%Q (random_reply_chance cfg) in
        if Qgtb draw reply_chance
        then (_save_history w, stop_event ev, req)
        else
          let e :=
            {| interest := Json.get_default "interest" (JStr "normal") analysis_result;
               feeling := Json.get_default "feeling" (JStr "neutral") analysis_result |} in
          (w, set_extra e ev, with_prompt (injection_wrapper req e) req)
  end.

(** [interest_analyzer], the hook on every LLM request. The result is the
    world, the event and the request as the handler leaves them. A missing
    template, a provider call that raises and an answer with no verdict
    all end the handler with nothing more done. *)
Definition interest_analyzer (ctx : context) (draw : Q)
    (ev : event) (req : request) (w : world) : world * event * request :=
  match active_provider ctx ev with
  | None => (w, ev, req)
  | Some analysis_provider =>
      let persona_description :=
        Py.or_str (_get_current_persona_prompt ctx ev) (system_prompt req) in
      let session_id := unified_msg_origin ev in
      let entry := user_history_entry ev req in
      let w := append_turn session_id entry w in
      let history := history_for_analysis session_id w in
      let w := emit (CacheRead session_id) w in
      let formatted_history := format_history history in
      let current_message_for_analysis := format_history_entry entry in
      match analysis_system_prompt cfg with
      | None => (w, ev, req)
      | Some analysis_prompt_template =>
          let analysis_prompt :=
            render_prompt analysis_prompt_template (awakening_context_str ev)
              persona_description formatted_history current_message_for_analysis in
          let w := emit (ProviderCall analysis_prompt) w in
          match analysis_provider analysis_prompt with
          | None => (w, ev, req)
          | Some response_text => apply_verdict draw ev req w response_text
          end
      end
  end.

(** [save_llm_reply_to_history], the hook on every LLM response. *)
Definition save_llm_reply_to_history (ev : event) (resp : response)
    (w : world) : world :=
  if negb (whitelisted ev) then w else
  let session_id := unified_msg_origin ev in
  let bot_reply_str := completion_text resp in
  if Py.truthy_str bot_reply_str then
    let bot_history_entry :=
      {| role := "assistant";
         sender_id := None;
         sender_name := None;
         content := bot_reply_str;
         state := if default false (record_emotion_in_history cfg)
                  then pic_emotion_data ev
                  else None |} in
    _save_history (append_turn session_id bot_history_entry w)
  else w.

Definition format_view_entry (msg : turn) : string :=
  if String.eqb (role msg) "user"
  then "[" +:+ role msg +:+ "] (" +:+ default "unknown" (sender_name msg)
       +:+ "/" +:+ default "0" (sender_id msg) +:+ "): " +:+ content msg
  else
    let state_info :=
      match state msg with
      | Some e => " (State: " +:+ Json.str (interest e) +:+ ", "
                  +:+ Json.str (feeling e) +:+ ")"
      | None => ""
      end in
    "[" +:+ role msg +:+ "]" +:+ state_info +:+ ": " +:+ content msg.

(** The texts the two commands answer with. *)
Definition msg_no_history : string := "当前会话没有聊天记录。".
Definition msg_cleared : string := "当前会话的聊天记录已清空。".
Definition msg_nothing_to_clear : string := "当前会话没有聊天记录可清空。".

(** [self.history_cache.get(session_id, [])] *)
Definition read_log (session_id : string) (w : world) : list turn :=
  default [] (history_cache w !! session_id).

(** [view_history]: the command [sir view]. *)
Definition view_history (ev : event) (w : world) : world * string :=
  let session_id := unified_msg_origin ev in
  let history := read_log session_id w in
  let w := emit (CacheRead session_id) w in
  match history with
  | [] => (w, msg_no_history)
  | _ :: _ =>
      (w, "--- Chat History ---" +:+ nl
          +:+ Py.join nl (map format_view_entry history))
  end.

(** [clear_history]: the command [sir clear]. *)
Definition clear_history (ev : event) (w : world) : world * string :=
  let session_id := unified_msg_origin ev in
  let w := emit (CacheRead session_id) w in
  match history_cache w !! session_id with
  | Some _ =>
      let w := emit (CacheDelete session_id)
                 (with_cache (delete session_id (history_cache w)) w) in
      (_save_history w, msg_cleared)
  | None => (w, msg_nothing_to_clear)
  end.

(** [terminate] *)
Definition terminate (w : world) : world := _save_history w.

End Plugin.

(** The prompt the handler sends when it gets as far as the provider, and
    the world at that moment: the two [let]s of [interest_analyzer] under
    names of their own. *)
Definition analysis_prompt_for (ctx : context) (ev : event) (req : request)
    (w : world) (template : string) : string :=
  let session_id := unified_msg_origin ev in
  let entry := user_history_entry ev req in
  render_prompt template (awakening_context_str ev)
    (Py.or_str (_get_current_persona_prompt ctx ev) (system_prompt req))
    (format_history (history_for_analysis session_id (append_turn session_id entry w)))
    (format_history_entry entry).

Definition world_at_call (ctx : context) (ev : event) (req : request)
    (w : world) (template : string) : world :=
  let session_id := unified_msg_origin ev in
  emit (ProviderCall (analysis_prompt_for ctx ev req w template))
    (emit (CacheRead session_id)
       (append_turn session_id (user_history_entry ev req) w)).

(** ** A reference instance of the library

    A JSON codec for [jvalue] written out in full: the printer follows
    [json.dumps(..., indent=2, ensure_ascii=False)], the reader the JSON
    grammar as [json.loads] reads it. Strings are UTF-8 byte sequences;
    an escaped surrogate with no partner is read as the three bytes of its
    generalised encoding. A number with a fraction or an exponent has no
    [jvalue] and is refused by this reader. *)
Module RefJson.

Definition dq : ascii := "034"%char.
Definition bs : ascii := "\"%char.

Definition hex_digit (n : N) : ascii :=
  match n with
  | 0%N => "0" | 1%N => "1" | 2%N => "2" | 3%N => "3" | 4%N => "4"
  | 5%N => "5" | 6%N => "6" | 7%N => "7" | 8%N => "8" | 9%N => "9"
  | 10%N => "a" | 11%N => "b" | 12%N => "c" | 13%N => "d" | 14%N => "e"
  | _ => "f"
  end%char.

(** The escape of one character, as [ESCAPE_DCT] of the encoder has it. *)
Definition escape_char (c : ascii) : string :=
  let n := N_of_ascii c in
  if (n =? 34)%N then String bs (String dq EmptyString)
  else if (n =? 92)%N then String bs (String bs EmptyString)
  else if (n =? 10)%N then String bs "n"
  else if (n =? 13)%N then String bs "r"
  else if (n =? 9)%N then String bs "t"
  else if (n =? 8)%N then String bs "b"
  else if (n =? 12)%N then String bs "f"
  else if (n <? 32)%N
       then String bs ("u00" +:+ String (hex_digit (n / 16)) (String (hex_digit (n mod 16)) EmptyString))
       else String c EmptyString.

Fixpoint escape (s : string) : string :=
  match s with
  | EmptyString => EmptyString
  | String c t => escape_char c +:+ escape t
  end.

Definition dumps_str (s : string) : string :=
  String dq (escape s +:+ String dq EmptyString).

Fixpoint spaces (n : nat) : string :=
  match n with
  | O => EmptyString
  | S k => String " " (spaces k)
  end.

(** A newline and the indentation of nesting level [level]. *)
Definition newline_indent (level : nat) : string :=
  nl +:+ spaces (2 * level).

Fixpoint dumps_at (level : nat) (v : jvalue) : string :=
  match v with
  | JNull => "null"
  | JBool true => "true"
  | JBool false => "false"
  | JInt z => Json.str_of_Z z
  | JStr s => dumps_str s
  | JArr [] => "[]"
  | JArr items =>
      "[" +:+ newline_indent (S level)
      +:+ Py.join ("," +:+ newline_indent (S level)) (map (dumps_at (S level)) items)
      +:+ newline_indent level +:+ "]"
  | JObj [] => "{}"
  | JObj members =>
      "{" +:+ newline_indent (S level)
      +:+ Py.join ("," +:+ newline_indent (S level))
            (map (fun kv => dumps_str (fst kv) +:+ ": " +:+ dumps_at (S level) (snd kv))
                 members)
      +:+ newline_indent level +:+ "}"
  end.

Definition dumps (v : jvalue) : string := dumps_at 0 v.

Definition is_ws (c : ascii) : bool :=
  let n := N_of_ascii c in
  ((n =? 32) || (n =? 10) || (n =? 13) || (n =? 9))%N.

Fixpoint skip_ws (s : string) : string :=
  match s with
  | EmptyString => EmptyString
  | String c t => if is_ws c then skip_ws t else s
  end.

Definition hex_val (c : ascii) : option N :=
  let n := N_of_ascii c in
  if ((48 <=? n) && (n <=? 57))%N then Some (n - 48)%N
  else if ((97 <=? n) && (n <=? 102))%N then Some (n - 87)%N
  else if ((65 <=? n) && (n <=? 70))%N then Some (n - 55)%N
  else None.

Definition hex4 (a b c d : ascii) : option N :=
  x ← hex_val a; y ← hex_val b; z ← hex_val c; w ← hex_val d;
  Some (((x * 16 + y) * 16 + z) * 16 + w)%N.

Definition byte (n : N) : ascii := ascii_of_N n.

(** The UTF-8 encoding of a code point, generalised to the surrogates. *)
Definition utf8 (cp : N) : string :=
  (if cp <? 128 then String (byte cp) EmptyString
   else if cp <? 2048 then
     String (byte (192 + cp / 64)) (String (byte (128 + cp mod 64)) EmptyString)
   else if cp <? 65536 then
     String (byte (224 + cp / 4096))
       (String (byte (128 + (cp / 64) mod 64))
          (String (byte (128 + cp mod 64)) EmptyString))
   else
     String (byte (240 + cp / 262144))
       (String (byte (128 + (cp / 4096) mod 64))
          (String (byte (128 + (cp / 64) mod 64))
             (String (byte (128 + cp mod 64)) EmptyString))))%N.

Definition unescape (c : ascii) : option ascii :=
  let n := N_of_ascii c in
  if (n =? 34)%N then Some dq
  else if (n =? 92)%N then Some bs
  else if (n =? 47)%N then Some "/"%char
  else if (n =? 98)%N then Some "008"%char
  else if (n =? 102)%N then Some "012"%char
  else if (n =? 110)%N then Some "010"%char
  else if (n =? 114)%N then Some "013"%char
  else if (n =? 116)%N then Some "009"%char
  else None.

Definition prepend (p : string) (r : option (string * string))
    : option (string * string) :=
  match r with
  | Some (s, rest) => Some (p +:+ s, rest)
  | None => None
  end.

(** The characters of a string up to its closing quote, escapes decoded;
    the opening quote has been read. A high surrogate followed by the
    escape of a low one is their code point; any other surrogate stands
    alone. *)
Fixpoint parse_chars (s : string) : option (string * string) :=
  match s with
  | EmptyString => None
  | String c t =>
      if Ascii.eqb c dq then Some (EmptyString, t)
      else if Ascii.eqb c bs then
        match t with
        | EmptyString => None
        | String e t1 =>
            if Ascii.eqb e "u" then
              match t1 with
              | String h1 (String h2 (String h3 (String h4 t2))) =>
                  match hex4 h1 h2 h3 h4 with
                  | Some cp =>
                      if ((55296 <=? cp) && (cp <? 56320))%N then
                        match t2 with
                        | String b1 (String u1 (String l1 (String l2 (String l3 (String l4 t3))))) =>
                            if Ascii.eqb b1 bs && Ascii.eqb u1 "u" then
                              match hex4 l1 l2 l3 l4 with
                              | Some lo =>
                                  if ((56320 <=? lo) && (lo <? 57344))%N
                                  then prepend
                                         (utf8 (65536 + (cp - 55296) * 1024 + (lo - 56320))%N)
                                         (parse_chars t3)
                                  else prepend (utf8 cp) (parse_chars t2)
                              | None => None
                              end
                            else prepend (utf8 cp) (parse_chars t2)
                        | _ => prepend (utf8 cp) (parse_chars t2)
                        end
                      else prepend (utf8 cp) (parse_chars t2)
                  | None => None
                  end
              | _ => None
              end
            else
              match unescape e with
              | Some c' => prepend (String c' EmptyString) (parse_chars t1)
              | None => None
              end
        end
      else if (N_of_ascii c <? 32)%N then None
      else prepend (String c EmptyString) (parse_chars t)
  end.

Definition is_digit (c : ascii) : bool :=
  let n := N_of_ascii c in ((48 <=? n) && (n <=? 57))%N.

(** The longest run of digits [s] starts with, and what follows it. *)
Fixpoint span_digits (s : string) : string * string :=
  match s with
  | EmptyString => (EmptyString, EmptyString)
  | String c t =>
      if is_digit c
      then let '(ds, rest) := span_digits t in (String c ds, rest)
      else (EmptyString, s)
  end.

(** A number token made of digits only; after a leading zero the token
    ends. A fraction or an exponent is refused. *)
Definition parse_nat (s : string) : option (Z * string) :=
  match s with
  | EmptyString => None
  | String c t =>
      if Ascii.eqb c "0" then Some (0, t)
      else
        let '(ds, rest) := span_digits s in
        match NilEmpty.uint_of_string ds with
        | Some (Decimal.Nil) => None
        | Some u => Some (Z.of_uint u, rest)
        | None => None
        end
  end.

Definition starts_fraction (s : string) : bool :=
  match s with
  | EmptyString => false
  | String c _ => Ascii.eqb c "." || Ascii.eqb c "e" || Ascii.eqb c "E"
  end.

Definition parse_int (s : string) : option (jvalue * string) :=
  '(neg, s1) ← match s with
               | EmptyString => None
               | String c t => if Ascii.eqb c "-" then Some (true, t) else Some (false, s)
               end;
  '(n, rest) ← parse_nat s1;
  if starts_fraction rest then None
  else Some (JInt (if (neg : bool) then - n else n), rest).

Fixpoint strip_prefix (p s : string) : option string :=
  match p with
  | EmptyString => Some s
  | String a p' =>
      match s with
      | String b s' => if Ascii.eqb a b then strip_prefix p' s' else None
      | EmptyString => None
      end
  end.

Fixpoint parse_value (fuel : nat) (s : string) {struct fuel}
    : option (jvalue * string) :=
  match fuel with
  | O => None
  | S fuel =>
      match skip_ws s with
      | EmptyString => None
      | String c t =>
          if Ascii.eqb c dq then
            '(str, rest) ← parse_chars t; Some (JStr str, rest)
          else if Ascii.eqb c "[" then
            match skip_ws t with
            | EmptyString => None
            | String c1 t1 =>
                if Ascii.eqb c1 "]" then Some (JArr [], t1)
                else '(items, rest) ← parse_elements fuel t; Some (JArr items, rest)
            end
          else if Ascii.eqb c "{" then
            match skip_ws t with
            | EmptyString => None
            | String c1 t1 =>
                if Ascii.eqb c1 "}" then Some (JObj [], t1)
                else '(members, rest) ← parse_members fuel t; Some (JObj members, rest)
            end
          else if Ascii.eqb c "n" then
            rest ← strip_prefix "ull" t; Some (JNull, rest)
          else if Ascii.eqb c "t" then
            rest ← strip_prefix "rue" t; Some (JBool true, rest)
          else if Ascii.eqb c "f" then
            rest ← strip_prefix "alse" t; Some (JBool false, rest)
          else parse_int (String c t)
      end
  end
with parse_elements (fuel : nat) (s : string) {struct fuel}
    : option (list jvalue * string) :=
  match fuel with
  | O => None
  | S fuel =>
      '(v, rest) ← parse_value fuel s;
      match skip_ws rest with
      | EmptyString => None
      | String c t =>
          if Ascii.eqb c "," then
            '(vs, rest') ← parse_elements fuel t; Some (v :: vs, rest')
          else if Ascii.eqb c "]" then Some ([v], t)
          else None
      end
  end
with parse_members (fuel : nat) (s : string) {struct fuel}
    : option (list (string * jvalue) * string) :=
  match fuel with
  | O => None
  | S fuel =>
      match skip_ws s with
      | EmptyString => None
      | String c t =>
          if Ascii.eqb c dq then
            '(k, rest) ← parse_chars t;
            match skip_ws rest with
            | EmptyString => None
            | String c1 t1 =>
                if Ascii.eqb c1 ":" then
                  '(v, rest1) ← parse_value fuel t1;
                  match skip_ws rest1 with
                  | EmptyString => None
                  | String c2 t2 =>
                      if Ascii.eqb c2 "," then
                        '(ms, rest2) ← parse_members fuel t2; Some ((k, v) :: ms, rest2)
                      else if Ascii.eqb c2 "}" then Some ([(k, v)], t2)
                      else None
                  end
                else None
            end
          else None
      end
  end.

(** [json.loads]: one value, then nothing but white space. *)
Definition loads (text : string) : option jvalue :=
  match parse_value (S (String.length text)) text with
  | Some (v, rest) =>
      match skip_ws rest with
      | EmptyString => Some v
      | String _ _ => None
      end
  | None => None
  end.

Definition contains (c : ascii) (s : string) : bool :=
  existsb (Ascii.eqb c) (list_ascii_of_string s).

(** [repr] of a string: single quotes unless the text has one and no
    double quote; the quote, the backslash and the control characters of
    ASCII are escaped. Every byte from 128 on stands for itself: the
    characters outside ASCII that [repr] escapes as not printable are not
    told apart. *)
Definition repr_str (s : string) : string :=
  let q := if contains "'" s && negb (contains dq s) then dq else "'"%char in
  let esc (c : ascii) : string :=
    let n := N_of_ascii c in
    if Ascii.eqb c bs then String bs (String bs EmptyString)
    else if Ascii.eqb c q then String bs (String q EmptyString)
    else if Ascii.eqb c "010" then String bs "n"
    else if Ascii.eqb c "013" then String bs "r"
    else if Ascii.eqb c "009" then String bs "t"
    else if ((n <? 32) || (n =? 127))%N
         then String bs
                (String "x" (String (hex_digit (n / 16))
                               (String (hex_digit (n mod 16)) EmptyString)))
         else String c EmptyString in
  String q (String.concat EmptyString (map esc (list_ascii_of_string s))
            +:+ String q EmptyString).

End RefJson.

Definition reference_lib : PyLib :=
  {| json_loads := RefJson.loads;
     json_dumps := RefJson.dumps;
     repr_str := RefJson.repr_str |}.

(** ** Notions used to show that the reference codec reads back what it writes *)

(** What follows a run of digits is not a digit. *)
Definition not_digit_head (rest : string) : bool :=
  match rest with
  | EmptyString => true
  | String c _ => negb (RefJson.is_digit c)
  end.

(** The characters a number token starts with. *)
Definition number_head (c : ascii) : bool :=
  RefJson.is_digit c || Ascii.eqb c "-".

(** What may follow a value in a document: the end, a comma or a newline. *)
Definition delimited (rest : string) : bool :=
  match rest with
  | EmptyString => true
  | String c _ => Ascii.eqb c "," || Ascii.eqb c "010"
  end.

(** A bound on the fuel the reader needs for a value. *)
Fixpoint size (v : jvalue) : nat :=
  match v with
  | JArr items => S (list_sum (map (fun x => S (size x)) items))
  | JObj members => S (list_sum (map (fun kv => S (size (snd kv))) members))
  | _ => 1
  end.

(** Induction on a value with the hypothesis for every item of an array
    and every member of an object. *)
Section JvalueInd.
Variable P : jvalue -> Prop.
Hypothesis Hnull : P JNull.
Hypothesis Hbool : forall b, P (JBool b).
Hypothesis Hint : forall z, P (JInt z).
Hypothesis Hstr : forall s, P (JStr s).
Hypothesis Harr : forall items, Forall P items -> P (JArr items).
Hypothesis Hobj : forall members, Forall (fun kv => P (snd kv)) members -> P (JObj members).

Fixpoint jvalue_nested_ind (v : jvalue) : P v :=
  match v with
  | JNull => Hnull
  | JBool b => Hbool b
  | JInt z => Hint z
  | JStr s => Hstr s
  | JArr items =>
      Harr items
        ((fix go (l : list jvalue) : Forall P l :=
            match l with
            | [] => @List.Forall_nil _ _
            | x :: r => @List.Forall_cons _ P x r (jvalue_nested_ind x) (go r)
            end) items)
  | JObj members =>
      Hobj members
        ((fix go (l : list (string * jvalue)) : Forall (fun kv => P (snd kv)) l :=
            match l with
            | [] => @List.Forall_nil _ _
            | kv :: r =>
                @List.Forall_cons _ (fun kv => P (snd kv)) kv r (jvalue_nested_ind (snd kv)) (go r)
            end) members)
  end.
End JvalueInd.

(** One member of a printed object. *)
Definition dumps_member (level : nat) (kv : string * jvalue) : string :=
  RefJson.dumps_str (fst kv) +:+ ": " +:+ RefJson.dumps_at level (snd kv).

(** The reader gives back a printed value, whatever follows it. *)
Definition reads_back (v : jvalue) : Prop :=
  forall level rest fuel,
    delimited rest = true -> (size v <= fuel)%nat ->
    RefJson.parse_value fuel (RefJson.dumps_at level v +:+ rest) = Some (v, rest).

(** ** The specification's own words *)

Module Spec.

(** Position of the first occurrence of [c] in [s]. *)
Fixpoint first_index (c : ascii) (s : string) : option nat :=
  match s with
  | EmptyString => None
  | String a t => if Ascii.eqb a c then Some O else S <$> first_index c t
  end.

(** Position of the last occurrence of [c] in [s]. *)
Fixpoint last_index (c : ascii) (s : string) : option nat :=
  match s with
  | EmptyString => None
  | String a t =>
      match last_index c t with
      | Some j => Some (S j)
      | None => if Ascii.eqb a c then Some O else None
      end
  end.

(** "The first opening brace through the last closing brace": the
    substring between the two positions, both included, when the first
    comes before the second. *)
Definition brace_span (s : string) : option string :=
  match first_index "{" s, last_index "}" s with
  | Some i, Some j =>
      if (i <? j)%nat then Some (substring i (S (j - i)) s) else None
  | _, _ => None
  end.

(** "The most recent [n] turns" of a log, in arrival order. *)
Definition most_recent {A} (n : nat) (log : list A) : list A :=
  drop (length log - n) log.

End Spec.

(** ** The lock discipline on a run's effects *)

(** The effects that read or change the cache or the file. *)
Definition touches_store (e : effect) : bool :=
  match e with
  | LockAcquire | LockRelease | ProviderCall _ => false
  | _ => true
  end.

(** Every access to the store in [es] happens while the lock is held;
    [held] says whether it is held when [es] starts. *)
Fixpoint under_lock (held : bool) (es : list effect) : bool :=
  match es with
  | [] => true
  | LockAcquire :: rest => under_lock true rest
  | LockRelease :: rest => under_lock false rest
  | e :: rest => (if touches_store e then held else true) && under_lock held rest
  end.

(** ** A concrete deployment, for the examples *)

Module Demo.

Definition q (s : string) : string := dquote +:+ s +:+ dquote.

Definition cfg (max_len : Z) (chance : option Q) : config :=
  {| whitelist := Some ["g1"; "u9"];
     analysis_provider_id := Some "judge";
     analysis_system_prompt :=
       Some "{awakening_context}/{persona}/{history}/{current_message}";
     history_max_length := Some max_len;
     random_reply_chance := chance;
     record_emotion_in_history := Some true |}.

(** A host whose only provider, [judge], always answers [answer]. *)
Definition ctx (answer : string) : context :=
  {| get_curr_conversation_id := fun _ => Some "c1";
     get_conversation := fun _ _ => Some (Conversation (Some "tutor"));
     selected_default_persona := None;
     personas := [Persona (Some "tutor") (Some "You are a patient tutor.")];
     get_provider_by_id :=
       fun id => if String.eqb id "judge" then Some (fun _ => Some answer) else None |}.

Definition ev (group : string) (at_bot : bool) : event :=
  {| get_group_id := group;
     get_sender_id := "u1";
     get_sender_name := "Ann";
     get_platform_name := "aiocqhttp";
     unified_msg_origin := "aiocqhttp:GroupMessage:" +:+ group;
     is_at_or_wake_command := at_bot;
     is_stopped := false;
     pic_emotion_data := None |}.

Definition sid : string := "aiocqhttp:GroupMessage:g1".

Definition req (text : option string) : request :=
  {| prompt := text; system_prompt := "Be kind." |}.

Definition user_turn (text : string) : turn :=
  Turn "user" (Some "u1") (Some "Ann") text None.

Definition bot_turn (text : string) : turn :=
  Turn "assistant" None None text
       (Some (Emotion (JStr "high") (JStr "curious"))).

Definition log3 : list turn :=
  [user_turn "one"; bot_turn "two"; user_turn "three"].

(** A store with one session of three turns and one empty session. *)
Definition store : world :=
  {| history_cache := <[sid := log3]> (<["aiocqhttp:FriendMessage:u9" := []]> ∅);
     history_file := None;
     disk_ok := true;
     effects := [] |}.

(** A store whose turns hold quotes, a backslash, a newline, a control
    character and text outside ASCII. *)
Definition store_unicode : world :=
  {| history_cache :=
       <[sid := [user_turn ("say " +:+ q "héllo" +:+ nl +:+ "C:\dir ☃ 你好" +:+ String "001"%char "!");
                 bot_turn "";
                 user_turn "three"]]>
         (<["aiocqhttp:FriendMessage:u9" := []]> ∅);
     history_file := None;
     disk_ok := true;
     effects := [] |}.

Definition empty_store : world :=
  {| history_cache := ∅; history_file := None; disk_ok := true; effects := [] |}.

(** A verdict that approves a reply. *)
Definition approve : string :=
  "ok: {" +:+ q "should_reply" +:+ ": true, " +:+ q "interest" +:+ ": "
  +:+ q "high" +:+ ", " +:+ q "feeling" +:+ ": " +:+ q "curious" +:+ "} done".

End Demo.

(** * Properties *)

(** ** Slices *)

Lemma slice_from_neg {A} (n : Z) (l : list A) :
  0 < n -> Py.slice_from (- n) l = Spec.most_recent (Z.to_nat n) l.
Proof.
  intros Hn. unfold Py.slice_from, Py.slice_index, Spec.most_recent.
  destruct (Z.ltb_spec (- n) 0) as [_ | H]; [| lia].
  f_equal. lia.
Qed.

Lemma slice_from_zero {A} (l : list A) : Py.slice_from (- 0) l = l.
Proof. unfold Py.slice_from, Py.slice_index. simpl. reflexivity. Qed.

Lemma slice_to_minus_one_snoc {A} (l : list A) (x : A) :
  Py.slice_to (-1) (l ++ [x]) = l.
Proof.
  unfold Py.slice_to, Py.slice_index. simpl.
  rewrite length_app. simpl.
  replace (Z.to_nat (Z.max (Z.of_nat (length l + 1) + -1) 0)) with (length l) by lia.
  apply take_app_length.
Qed.

Lemma most_recent_suffix {A} (n : nat) (l : list A) :
  take (length l - n) l ++ Spec.most_recent n l = l.
Proof. unfold Spec.most_recent. apply take_drop. Qed.

Lemma most_recent_length {A} (n : nat) (l : list A) :
  length (Spec.most_recent n l) = Nat.min n (length l).
Proof. unfold Spec.most_recent. rewrite length_drop. lia. Qed.
(** ** The pattern and the brace span *)

Lemma match_rest_last (t : string) :
  Re.match_rest t = (fun j => substring 0 (S j) t) <$> Spec.last_index Re.rbrace t.
Proof.
  induction t as [| c t IH]; simpl; [reflexivity |].
  rewrite IH. destruct (Spec.last_index Re.rbrace t) as [j |]; simpl; [reflexivity |].
  destruct (Ascii.eqb c Re.rbrace); simpl; [| reflexivity].
  destruct t; reflexivity.
Qed.

Lemma search_none_without_close (t : string) :
  Spec.last_index Re.rbrace t = None -> Re.search t = None.
Proof.
  induction t as [| c t IH]; simpl; [reflexivity |].
  destruct (Spec.last_index Re.rbrace t) as [j |] eqn:E; [discriminate |].
  intros _. rewrite match_rest_last, E. simpl.
  destruct (Ascii.eqb c Re.lbrace); auto.
Qed.

Lemma search_is_brace_span (s : string) : Re.search s = Spec.brace_span s.
Proof.
  unfold Spec.brace_span. change "{"%char with Re.lbrace. change "}"%char with Re.rbrace.
  induction s as [| c t IH]; simpl; [reflexivity |].
  destruct (Ascii.eqb_spec c Re.lbrace) as [-> | Hc].
  - rewrite match_rest_last. simpl.
    destruct (Spec.last_index Re.rbrace t) as [j |] eqn:E; simpl.
    + reflexivity.
    + apply search_none_without_close. exact E.
  - rewrite IH.
    destruct (Spec.first_index Re.lbrace t) as [i |] eqn:Ei; simpl.
    + destruct (Spec.last_index Re.rbrace t) as [j |] eqn:Ej; simpl.
      * change (S i <? S j)%nat with (i <? j)%nat. reflexivity.
      * destruct (Ascii.eqb c Re.rbrace); reflexivity.
    + destruct (Spec.last_index Re.rbrace t) as [j |] eqn:Ej; simpl; [reflexivity |].
      destruct (Ascii.eqb c Re.rbrace); reflexivity.
Qed.

(** ** The store: what [_save_history] and [_load_history] leave behind *)

Section Store.
Context {L : PyLib}.
Variable cfg : config.

Lemma save_history_cache (w : world) :
  history_cache (_save_history cfg w)
  = Py.slice_from (- default 20 (history_max_length cfg)) <$> history_cache w.
Proof. unfold _save_history. simpl. destruct (disk_ok w); reflexivity. Qed.

Lemma save_history_disk_ok (w : world) :
  disk_ok (_save_history cfg w) = disk_ok w.
Proof. unfold _save_history. simpl. destruct (disk_ok w) eqn:E; simpl; auto. Qed.

Lemma save_history_file (w : world) :
  history_file (_save_history cfg w)
  = if disk_ok w
    then Some (Py.write_utf8
                 (json_dumps (Doc.json_of_history (history_cache (_save_history cfg w)))))
    else history_file w.
Proof. unfold _save_history. simpl. destruct (disk_ok w); reflexivity. Qed.

Lemma save_history_effects (w : world) :
  effects (_save_history cfg w)
  = effects w ++ [LockAcquire; CacheTrim]
    ++ (if disk_ok w then [FileWrite] else []) ++ [LockRelease].
Proof.
  unfold _save_history. simpl.
  destruct (disk_ok w); simpl; rewrite <- ?app_assoc; reflexivity.
Qed.

(** With a positive cap the slice keeps the most recent turns: the log is
    cut to at most [n] turns, and what is dropped is its older part. *)
Lemma save_history_trims (n : Z) (w : world) (session_id : string) (log : list turn) :
  history_max_length cfg = Some n -> 0 < n ->
  history_cache w !! session_id = Some log ->
  history_cache (_save_history cfg w) !! session_id
  = Some (Spec.most_recent (Z.to_nat n) log).
Proof.
  intros Hn Hpos Hlog.
  rewrite save_history_cache, lookup_fmap, Hlog, Hn. simpl.
  rewrite slice_from_neg by assumption. reflexivity.
Qed.

Lemma save_history_sessions (w : world) (session_id : string) :
  history_cache (_save_history cfg w) !! session_id = None
  <-> history_cache w !! session_id = None.
Proof. rewrite save_history_cache, lookup_fmap. apply fmap_None. Qed.

End Store.

(** C1. [_save_history] cuts every log with the slice [[-max_len:]]. For
    [history_max_length = 0] that slice is [[0:]], the whole list: the
    cache is left as it was, and a session of three turns still has three
    turns, more than the configured cap of zero. *)
Theorem save_history_zero_cap_keeps_all (L : PyLib) :
  (forall w : world,
      history_cache (_save_history (Demo.cfg 0 None) w) = history_cache w)
  /\ history_cache (_save_history (Demo.cfg 0 None) Demo.store) !! Demo.sid
     = Some Demo.log3
  /\ ~ (length Demo.log3 <= Z.to_nat 0)%nat.
Proof.
  assert (H : forall w : world,
             history_cache (_save_history (Demo.cfg 0 None) w) = history_cache w).
  { intros w. rewrite save_history_cache.
    change (default 20 (history_max_length (Demo.cfg 0 None))) with 0.
    apply map_eq. intros k. rewrite lookup_fmap.
    destruct (history_cache w !! k) as [l |]; simpl; [| reflexivity].
    now rewrite (slice_from_zero l). }
  split; [exact H |]. split.
  - rewrite H. unfold Demo.store. simpl. apply lookup_insert_eq.
  - simpl. lia.
Qed.

(** ** The analyzer, stage by stage *)

Section Analyzer.
Context {L : PyLib}.
Variable cfg : config.

Lemma parse_verdict_span (response_text : string) :
  parse_verdict response_text
  = match Spec.brace_span response_text with
    | None => None
    | Some json_str =>
        match json_loads json_str with
        | Some (JObj analysis_result) => Some analysis_result
        | _ => None
        end
    end.
Proof. unfold parse_verdict. rewrite search_is_brace_span. reflexivity. Qed.

Lemma apply_verdict_none (draw : Q) (ev : event) (req : request) (w : world)
    (response_text : string) :
  parse_verdict response_text = None ->
  apply_verdict cfg draw ev req w response_text = (w, ev, req).
Proof. intros H. unfold apply_verdict. rewrite H. reflexivity. Qed.

Lemma interest_analyzer_inactive (ctx : context) (draw : Q) (ev : event)
    (req : request) (w : world) :
  active_provider cfg ctx ev = None ->
  interest_analyzer cfg ctx draw ev req w = (w, ev, req).
Proof. intros H. unfold interest_analyzer. rewrite H. reflexivity. Qed.

Lemma interest_analyzer_no_template (ctx : context) (draw : Q) (ev : event)
    (req : request) (w : world) (analysis_provider : provider) :
  active_provider cfg ctx ev = Some analysis_provider ->
  analysis_system_prompt cfg = None ->
  interest_analyzer cfg ctx draw ev req w
  = (emit (CacheRead (unified_msg_origin ev))
       (append_turn (unified_msg_origin ev) (user_history_entry ev req) w), ev, req).
Proof. intros H1 H2. unfold interest_analyzer. rewrite H1, H2. reflexivity. Qed.

(** Past the gates and with a template, the handler appends the turn,
    renders the prompt, calls the provider and acts on its answer. *)
Lemma interest_analyzer_calls (ctx : context) (draw : Q) (ev : event)
    (req : request) (w : world) (analysis_provider : provider) (template : string) :
  active_provider cfg ctx ev = Some analysis_provider ->
  analysis_system_prompt cfg = Some template ->
  interest_analyzer cfg ctx draw ev req w
  = match analysis_provider (analysis_prompt_for ctx ev req w template) with
    | None => (world_at_call ctx ev req w template, ev, req)
    | Some response_text =>
        apply_verdict cfg draw ev req (world_at_call ctx ev req w template)
          response_text
    end.
Proof. intros H1 H2. unfold interest_analyzer. rewrite H1, H2. reflexivity. Qed.

Lemma active_provider_whitelisted (ctx : context) (ev : event) (p : provider) :
  active_provider cfg ctx ev = Some p -> whitelisted cfg ev = true.
Proof.
  unfold active_provider. destruct (whitelisted cfg ev); [reflexivity | discriminate].
Qed.

Lemma append_turn_log (session_id : string) (entry : turn) (w : world) :
  read_log session_id (append_turn session_id entry w)
  = read_log session_id w ++ [entry].
Proof. unfold read_log, append_turn. simpl. rewrite lookup_insert_eq. reflexivity. Qed.

Lemma append_turn_other (session_id other : string) (entry : turn) (w : world) :
  session_id <> other ->
  history_cache (append_turn session_id entry w) !! other = history_cache w !! other.
Proof. intros H. unfold append_turn. simpl. apply lookup_insert_ne. exact H. Qed.

Lemma history_for_analysis_append (session_id : string) (entry : turn) (w : world) :
  history_for_analysis session_id (append_turn session_id entry w)
  = read_log session_id w.
Proof.
  unfold history_for_analysis. fold (read_log session_id (append_turn session_id entry w)).
  rewrite append_turn_log. apply slice_to_minus_one_snoc.
Qed.

Lemma world_at_call_log (ctx : context) (ev : event) (req : request) (w : world)
    (template : string) :
  read_log (unified_msg_origin ev) (world_at_call ctx ev req w template)
  = read_log (unified_msg_origin ev) w ++ [user_history_entry ev req].
Proof. unfold world_at_call. apply append_turn_log. Qed.

Lemma world_at_call_effects (ctx : context) (ev : event) (req : request) (w : world)
    (template : string) :
  effects (world_at_call ctx ev req w template)
  = effects w ++ [CacheAppend (unified_msg_origin ev);
                  CacheRead (unified_msg_origin ev);
                  ProviderCall (analysis_prompt_for ctx ev req w template)].
Proof. unfold world_at_call. simpl. rewrite <- !app_assoc. reflexivity. Qed.

Lemma world_at_call_file (ctx : context) (ev : event) (req : request) (w : world)
    (template : string) :
  history_file (world_at_call ctx ev req w template) = history_file w.
Proof. reflexivity. Qed.

(** Whatever the answer, the handler only adds effects. *)
Lemma apply_verdict_effects (draw : Q) (ev : event) (req : request) (w : world)
    (response_text : string) :
  exists rest,
    effects (apply_verdict cfg draw ev req w response_text).1.1 = effects w ++ rest.
Proof.
  unfold apply_verdict.
  destruct (parse_verdict response_text) as [result |]; cbn [fst].
  - destruct (negb _); cbn [fst].
    + rewrite save_history_effects. eauto.
    + destruct (Qgtb _ _); cbn [fst].
      * rewrite save_history_effects. eauto.
      * exists []. now rewrite app_nil_r.
  - exists []. now rewrite app_nil_r.
Qed.

End Analyzer.

(** The ways the handler and the hook can end. *)

Section Hooks.
Context {L : PyLib}.
Variable cfg : config.

Lemma apply_verdict_cases (draw : Q) (ev : event) (req : request) (w : world)
    (response_text : string) :
  apply_verdict cfg draw ev req w response_text = (w, ev, req)
  \/ apply_verdict cfg draw ev req w response_text
     = (_save_history cfg w, stop_event ev, req)
  \/ exists e,
       apply_verdict cfg draw ev req w response_text
       = (w, set_extra e ev, with_prompt (injection_wrapper req e) req).
Proof.
  unfold apply_verdict.
  destruct (parse_verdict response_text) as [result |]; [| now left].
  destruct (negb _); [right; now left |].
  destruct (Qgtb _ _); [right; now left |].
  right. right. eexists. reflexivity.
Qed.

(** The hook either leaves everything alone, or appends the user's turn
    and then returns, stops the event after a save, or rewrites the
    request. *)
Lemma interest_analyzer_cases (ctx : context) (draw : Q) (ev : event)
    (req : request) (w : world) :
  let session_id := unified_msg_origin ev in
  let out := interest_analyzer cfg ctx draw ev req w in
  out = (w, ev, req)
  \/ exists w1,
       history_cache w1
       = <[session_id := read_log session_id w ++ [user_history_entry ev req]]>
           (history_cache w)
       /\ history_file w1 = history_file w
       /\ disk_ok w1 = disk_ok w
       /\ (out = (w1, ev, req)
           \/ out = (_save_history cfg w1, stop_event ev, req)
           \/ exists e,
                out = (w1, set_extra e ev, with_prompt (injection_wrapper req e) req)).
Proof.
  intros session_id out. subst out.
  destruct (active_provider cfg ctx ev) as [analysis_provider |] eqn:Hact;
    [| left; now apply interest_analyzer_inactive].
  right. destruct (analysis_system_prompt cfg) as [template |] eqn:Htpl.
  - exists (world_at_call ctx ev req w template).
    split; [reflexivity |]. split; [reflexivity |]. split; [reflexivity |].
    rewrite (interest_analyzer_calls cfg ctx draw ev req w _ _ Hact Htpl).
    destruct (analysis_provider _) as [response_text |]; [| now left].
    apply apply_verdict_cases.
  - eexists. split; [| split; [| split; [| left;
      exact (interest_analyzer_no_template cfg ctx draw ev req w _ Hact Htpl)]]];
      reflexivity.
Qed.

End Hooks.

(** ** Verdict parsing *)

(** C2. The text handed to the decoder is the span from the first opening
    brace to the last closing brace; with no such span, or when decoding
    does not give a dict, there is no verdict, the handler returns what it
    was given, and so does the whole hook whenever the provider's answers
    carry no verdict. The two inputs of the specification have none. *)
Theorem verdict_parsing_never_raises (L : PyLib) (cfg : config) :
  (forall response_text, Re.search response_text = Spec.brace_span response_text)
  /\ (forall response_text,
         parse_verdict response_text
         = match Spec.brace_span response_text with
           | None => None
           | Some json_str =>
               match json_loads json_str with
               | Some (JObj analysis_result) => Some analysis_result
               | _ => None
               end
           end)
  /\ parse_verdict "no json here" = None
  /\ parse_verdict "{broken" = None
  /\ (forall draw ev req w response_text,
         parse_verdict response_text = None ->
         apply_verdict cfg draw ev req w response_text = (w, ev, req))
  /\ (forall ctx draw ev req w,
         (forall analysis_provider analysis_prompt response_text,
             active_provider cfg ctx ev = Some analysis_provider ->
             analysis_provider analysis_prompt = Some response_text ->
             parse_verdict response_text = None) ->
         (interest_analyzer cfg ctx draw ev req w).2 = req
         /\ (interest_analyzer cfg ctx draw ev req w).1.2 = ev).
Proof.
  split; [exact search_is_brace_span |].
  split; [exact parse_verdict_span |].
  split; [reflexivity |].
  split; [reflexivity |].
  split; [intros; now apply apply_verdict_none |].
  intros ctx draw ev req w Hnone.
  destruct (active_provider cfg ctx ev) as [analysis_provider |] eqn:Hact.
  - destruct (analysis_system_prompt cfg) as [template |] eqn:Htpl.
    + rewrite (interest_analyzer_calls cfg ctx draw ev req w _ _ Hact Htpl).
      destruct (analysis_provider _) as [response_text |] eqn:Hans; [| easy].
      rewrite apply_verdict_none; [easy |].
      eapply Hnone; [reflexivity | exact Hans].
    + now rewrite (interest_analyzer_no_template cfg ctx draw ev req w _ Hact Htpl).
  - now rewrite interest_analyzer_inactive.
Qed.

Lemma verdict_parsing_never_raises_witness :
  (interest_analyzer (L := reference_lib) (Demo.cfg 20 None) (Demo.ctx "no json here")
     (1 # 2) (Demo.ev "g1" false) (Demo.req (Some "hello")) Demo.store).2
  = Demo.req (Some "hello")
  /\ (interest_analyzer (L := reference_lib) (Demo.cfg 20 None) (Demo.ctx "{broken")
        (1 # 2) (Demo.ev "g1" false) (Demo.req (Some "hello")) Demo.store).2
     = Demo.req (Some "hello").
Proof.
  split.
  - apply (verdict_parsing_never_raises reference_lib (Demo.cfg 20 None)).
    intros analysis_provider analysis_prompt response_text Hact Hans.
    vm_compute in Hact. injection Hact as <-.
    injection Hans as <-. vm_compute. reflexivity.
  - apply (verdict_parsing_never_raises reference_lib (Demo.cfg 20 None)).
    intros analysis_provider analysis_prompt response_text Hact Hans.
    vm_compute in Hact. injection Hact as <-.
    injection Hans as <-. vm_compute. reflexivity.
Defined.

(** ** The allow-list gate *)

(** C6. A message whose subject, the group id or else the sender id, is
    not on the allow-list goes through both hooks with the world, the event
    and the request exactly as they were: no log is touched. *)
Theorem not_whitelisted_untouched (L : PyLib) (cfg : config) (ctx : context)
    (draw : Q) (ev : event) (req : request) (resp : response) (w : world) :
  Py.or_str (get_group_id ev) (get_sender_id ev) ∉ default [] (whitelist cfg) ->
  interest_analyzer cfg ctx draw ev req w = (w, ev, req)
  /\ save_llm_reply_to_history cfg ev resp w = w
  /\ (forall session_id,
         read_log session_id (interest_analyzer cfg ctx draw ev req w).1.1
         = read_log session_id w).
Proof.
  intros Hout.
  assert (Hw : whitelisted cfg ev = false).
  { unfold whitelisted, subject_id. apply bool_decide_eq_false. exact Hout. }
  assert (Hrun : interest_analyzer cfg ctx draw ev req w = (w, ev, req)).
  { apply interest_analyzer_inactive. unfold active_provider. now rewrite Hw. }
  split; [exact Hrun |]. split.
  - unfold save_llm_reply_to_history. now rewrite Hw.
  - intros session_id. now rewrite Hrun.
Qed.

Lemma not_whitelisted_untouched_witness :
  interest_analyzer (L := reference_lib) (Demo.cfg 20 None) (Demo.ctx Demo.approve)
    (1 # 2) (Demo.ev "g7" true) (Demo.req (Some "hello")) Demo.store
  = (Demo.store, Demo.ev "g7" true, Demo.req (Some "hello")).
Proof.
  apply (not_whitelisted_untouched reference_lib (Demo.cfg 20 None)
           (Demo.ctx Demo.approve) (1 # 2) (Demo.ev "g7" true)
           (Demo.req (Some "hello")) (Response "hi") Demo.store).
  vm_compute. intros H. repeat (apply elem_of_cons in H as [H | H]; [discriminate H |]).
  apply elem_of_nil in H. exact H.
Defined.

(** ** The random gate *)

Lemma Qgtb_lt (a b : Q) : Qgtb a b = true <-> (b < a)%Q.
Proof.
  unfold Qgtb. rewrite negb_true_iff. split.
  - intros H. apply Qnot_le_lt. intros Hle. apply Qle_bool_iff in Hle. congruence.
  - intros H. destruct (Qle_bool a b) eqn:E; [| reflexivity].
    apply Qle_bool_iff in E. exfalso. exact (Qlt_not_le _ _ H E).
Qed.

(** C3, as the code has it. Once the classifier has approved a reply, the
    event is stopped exactly when the drawn value is greater than the
    configured chance. With a chance of zero every draw greater than zero
    is suppressed; with the default chance of one no draw from [0,1) is,
    and the request gets its note. *)
Theorem random_gate (L : PyLib) (cfg : config) (draw : Q) (ev : event)
    (req : request) (w : world) (response_text : string)
    (analysis_result : list (string * jvalue)) :
  parse_verdict response_text = Some analysis_result ->
  Json.truthy (Json.get_default "should_reply" (JBool true) analysis_result) = true ->
  is_stopped ev = false ->
  (0 <= draw)%Q /\ (draw < 1)%Q ->
  let reply_chance := default 1%Q (random_reply_chance cfg) in
  let out := apply_verdict cfg draw ev req w response_text in
  (is_stopped out.1.2 = true <-> (reply_chance < draw)%Q)
  /\ ((reply_chance == 0)%Q -> (0 < draw)%Q -> is_stopped out.1.2 = true)
  /\ ((reply_chance == 1)%Q ->
      is_stopped out.1.2 = false
      /\ out.2 = with_prompt
                   (injection_wrapper req
                      {| interest := Json.get_default "interest" (JStr "normal") analysis_result;
                         feeling := Json.get_default "feeling" (JStr "neutral") analysis_result |})
                   req).
Proof.
  intros Hparse Hreply Hrun [Hlo Hhi] reply_chance out.
  assert (Hout : out = if Qgtb draw reply_chance
                       then (_save_history cfg w, stop_event ev, req)
                       else (w,
                             set_extra
                               {| interest := Json.get_default "interest" (JStr "normal") analysis_result;
                                  feeling := Json.get_default "feeling" (JStr "neutral") analysis_result |} ev,
                             with_prompt
                               (injection_wrapper req
                                  {| interest := Json.get_default "interest" (JStr "normal") analysis_result;
                                     feeling := Json.get_default "feeling" (JStr "neutral") analysis_result |})
                               req)).
  { subst out. unfold apply_verdict. rewrite Hparse, Hreply. reflexivity. }
  assert (Hiff : is_stopped out.1.2 = true <-> (reply_chance < draw)%Q).
  { rewrite <- Qgtb_lt. rewrite Hout.
    destruct (Qgtb draw reply_chance); simpl; [tauto |].
    rewrite Hrun. split; discriminate. }
  split; [exact Hiff |]. split.
  - intros Hzero Hpos. apply Hiff. now rewrite Hzero.
  - intros Hone.
    assert (Hno : Qgtb draw reply_chance = false).
    { destruct (Qgtb draw reply_chance) eqn:E; [| reflexivity].
      apply Qgtb_lt in E. rewrite Hone in E.
      exfalso. exact (Qlt_irrefl _ (Qlt_trans _ _ _ E Hhi)). }
    rewrite Hout, Hno. simpl. split; [exact Hrun | reflexivity].
Qed.

Lemma random_gate_witness :
  is_stopped
    (apply_verdict (L := reference_lib) (Demo.cfg 20 (Some 0%Q)) (1 # 3)
       (Demo.ev "g1" false) (Demo.req (Some "hello")) Demo.store Demo.approve).1.2
  = true.
Proof.
  refine (proj1 (proj2 (random_gate reference_lib (Demo.cfg 20 (Some 0%Q)) (1 # 3)
                          (Demo.ev "g1" false) (Demo.req (Some "hello")) Demo.store
                          Demo.approve
                          [("should_reply", JBool true); ("interest", JStr "high");
                           ("feeling", JStr "curious")] _ _ _ _)) _ _).
  - vm_compute. reflexivity.
  - vm_compute. reflexivity.
  - reflexivity.
  - split; [discriminate | reflexivity].
  - reflexivity.
  - reflexivity.
Defined.

(** C3, as stated, fails at a draw of exactly zero: it is a value of
    [0,1), it is not greater than a chance of zero, and the approved reply
    goes out with its note. *)
Lemma random_gate_zero_draw_passes :
  (0 <= 0)%Q /\ (0 < 1)%Q
  /\ parse_verdict (L := reference_lib) Demo.approve
     = Some [("should_reply", JBool true); ("interest", JStr "high");
             ("feeling", JStr "curious")]
  /\ is_stopped
       (interest_analyzer (L := reference_lib) (Demo.cfg 20 (Some 0%Q))
          (Demo.ctx Demo.approve) 0
          (Demo.ev "g1" false) (Demo.req (Some "hello")) Demo.store).1.2
     = false
  /\ is_Some
       (pic_emotion_data
          (interest_analyzer (L := reference_lib) (Demo.cfg 20 (Some 0%Q))
             (Demo.ctx Demo.approve) 0
             (Demo.ev "g1" false) (Demo.req (Some "hello")) Demo.store).1.2).
Proof.
  split; [discriminate |]. split; [reflexivity |].
  split; [vm_compute; reflexivity |].
  split; [vm_compute; reflexivity |].
  vm_compute. eauto.
Qed.

(** ** An answer with no verdict *)

(** C4, as the code has it. When the provider's answer carries no verdict
    the hook returns at once: the request and the event are as they were,
    the user's turn stays at the end of the session's log in the cache,
    and the file is not written; no lock is taken and nothing is saved. *)
Theorem no_verdict_returns_without_saving (L : PyLib) (cfg : config) (ctx : context)
    (draw : Q) (ev : event) (req : request) (w : world)
    (analysis_provider : provider) (template response_text : string) :
  active_provider cfg ctx ev = Some analysis_provider ->
  analysis_system_prompt cfg = Some template ->
  analysis_provider (analysis_prompt_for ctx ev req w template) = Some response_text ->
  parse_verdict response_text = None ->
  let session_id := unified_msg_origin ev in
  let out := interest_analyzer cfg ctx draw ev req w in
  out.2 = req
  /\ out.1.2 = ev
  /\ read_log session_id out.1.1 = read_log session_id w ++ [user_history_entry ev req]
  /\ history_file out.1.1 = history_file w
  /\ effects out.1.1
     = effects w ++ [CacheAppend session_id; CacheRead session_id;
                     ProviderCall (analysis_prompt_for ctx ev req w template)].
Proof.
  intros Hact Htpl Hans Hnone session_id out. subst out.
  rewrite (interest_analyzer_calls cfg ctx draw ev req w _ _ Hact Htpl), Hans.
  rewrite apply_verdict_none by exact Hnone. cbn [fst snd].
  split; [reflexivity |]. split; [reflexivity |].
  split; [apply world_at_call_log |].
  split; [reflexivity | apply world_at_call_effects].
Qed.

Lemma no_verdict_returns_without_saving_witness :
  history_file
    (interest_analyzer (L := reference_lib) (Demo.cfg 20 None)
       (Demo.ctx "no json here") (1 # 2) (Demo.ev "g1" false)
       (Demo.req (Some "hello")) Demo.store).1.1
  = None.
Proof.
  refine (proj1 (proj2 (proj2 (proj2
            (no_verdict_returns_without_saving reference_lib (Demo.cfg 20 None)
               (Demo.ctx "no json here") (1 # 2) (Demo.ev "g1" false)
               (Demo.req (Some "hello")) Demo.store
               (fun _ => Some "no json here")
               "{awakening_context}/{persona}/{history}/{current_message}"
               "no json here" _ _ _ _))))).
  - vm_compute. reflexivity.
  - reflexivity.
  - reflexivity.
  - vm_compute. reflexivity.
Defined.

(** C4, as stated, fails: after an answer with no verdict the user's turn
    is in the cache but there is still no file, on a disk that can be
    written, and the run has written nothing. *)
Lemma no_verdict_nothing_persisted :
  let out :=
    interest_analyzer (L := reference_lib) (Demo.cfg 20 None)
      (Demo.ctx "no json here") (1 # 2) (Demo.ev "g1" false)
      (Demo.req (Some "hello")) Demo.empty_store in
  parse_verdict (L := reference_lib) "no json here" = None
  /\ read_log Demo.sid out.1.1 = [Demo.user_turn "hello"]
  /\ disk_ok out.1.1 = true
  /\ history_file out.1.1 = None
  /\ FileWrite ∉ (effects out.1.1).
Proof.
  split; [reflexivity |]. split; [vm_compute; reflexivity |].
  split; [reflexivity |]. split; [reflexivity |].
  vm_compute. intros H.
  repeat (apply elem_of_cons in H as [H | H]; [discriminate H |]).
  apply elem_of_nil in H. exact H.
Qed.

(** ** The lock *)

Lemma load_history_effects (L : PyLib) (w : world) :
  exists es,
    effects (_load_history w) = effects w ++ es /\ under_lock false es = true.
Proof.
  unfold _load_history. simpl.
  destruct (history_file w) as [text |]; simpl.
  - destruct (disk_ok w); simpl.
    + destruct (json_loads text ≫= Doc.history_of_json) as [h |]; simpl.
      * exists [LockAcquire; FileRead; CacheReplace; LockRelease].
        rewrite <- !app_assoc. easy.
      * exists [LockAcquire; FileRead; LockRelease]. rewrite <- !app_assoc. easy.
    + exists [LockAcquire; LockRelease]. rewrite <- !app_assoc. easy.
  - exists [LockAcquire; LockRelease]. rewrite <- !app_assoc. easy.
Qed.

(** C5, as the code has it. Only [_save_history] and [_load_history] take
    the lock, and all they do to the store happens while they hold it.
    Appending a turn, reading a log and deleting a log touch the cache
    with the lock not held; [clear_history] deletes first and takes the
    lock only for the save that follows. *)
Theorem lock_only_around_save_and_load (L : PyLib) (cfg : config) :
  (forall w, exists es,
        effects (_save_history cfg w) = effects w ++ es
        /\ under_lock false es = true)
  /\ (forall w, exists es,
        effects (_load_history w) = effects w ++ es
        /\ under_lock false es = true)
  /\ (forall session_id entry w,
        effects (append_turn session_id entry w)
        = effects w ++ [CacheAppend session_id]
        /\ under_lock false [CacheAppend session_id] = false)
  /\ (forall ev w,
        effects (view_history ev w).1
        = effects w ++ [CacheRead (unified_msg_origin ev)]
        /\ under_lock false [CacheRead (unified_msg_origin ev)] = false)
  /\ (forall ev w, exists es,
        effects (clear_history cfg ev w).1
        = effects w ++ CacheRead (unified_msg_origin ev) :: es
        /\ (es = []
            \/ exists es', es = CacheDelete (unified_msg_origin ev) :: es'
                           /\ under_lock false es' = true)
        /\ under_lock false (CacheRead (unified_msg_origin ev) :: es) = false).
Proof.
  split.
  { intros w. eexists. split; [apply save_history_effects |].
    destruct (disk_ok w); reflexivity. }
  split; [apply load_history_effects |].
  split; [intros; split; reflexivity |].
  split.
  { intros ev w. unfold view_history.
    destruct (read_log (unified_msg_origin ev) w); split; reflexivity. }
  intros ev w. unfold clear_history.
  change (history_cache (emit (CacheRead (unified_msg_origin ev)) w))
    with (history_cache w).
  destruct (history_cache w !! unified_msg_origin ev) as [log |]; cbn [fst].
  - rewrite save_history_effects. cbn [effects emit with_cache disk_ok].
    exists (CacheDelete (unified_msg_origin ev)
            :: [LockAcquire; CacheTrim]
               ++ (if disk_ok w then [FileWrite] else []) ++ [LockRelease]).
    split; [rewrite <- !app_assoc; reflexivity |].
    split; [| reflexivity].
    right. eexists. split; [reflexivity |]. destruct (disk_ok w); reflexivity.
  - exists []. split; [reflexivity |]. split; [now left | reflexivity].
Qed.

(** C5, as stated, fails: in a run of the request hook the turn is
    appended and the log is read with the lock never taken. *)
Lemma append_runs_without_lock :
  let out :=
    interest_analyzer (L := reference_lib) (Demo.cfg 20 None)
      (Demo.ctx "no json here") (1 # 2) (Demo.ev "g1" false)
      (Demo.req (Some "hello")) Demo.store in
  CacheAppend Demo.sid ∈ (effects out.1.1)
  /\ (LockAcquire ∉ effects out.1.1)
  /\ under_lock false (effects out.1.1) = false.
Proof.
  split; [vm_compute; constructor |].
  split; [| vm_compute; reflexivity].
  vm_compute. intros H.
  repeat (apply elem_of_cons in H as [H | H]; [discriminate H |]).
  apply elem_of_nil in H. exact H.
Qed.

(** ** The analysis context *)

Section PastTheGates.
Context {L : PyLib}.
Variable cfg : config.

(** What the hook leaves behind once it is past the gates and has a
    template, for an event that comes in not stopped: the user's turn is
    appended to the session's log, the prompt rendered from the earlier
    turns and from that turn is sent, and the logs are cut by a save
    exactly when the event goes out stopped. *)
Lemma interest_analyzer_past_gates (ctx : context) (draw : Q) (ev : event)
    (req : request) (w : world) (analysis_provider : provider) (template : string) :
  active_provider cfg ctx ev = Some analysis_provider ->
  analysis_system_prompt cfg = Some template ->
  is_stopped ev = false ->
  let session_id := unified_msg_origin ev in
  let entry := user_history_entry ev req in
  let earlier := read_log session_id w in
  let appended := <[session_id := earlier ++ [entry]]> (history_cache w) in
  let sent :=
    render_prompt template (awakening_context_str ev)
      (Py.or_str (_get_current_persona_prompt ctx ev) (system_prompt req))
      (format_history earlier) (format_history_entry entry) in
  let out := interest_analyzer cfg ctx draw ev req w in
  history_cache out.1.1
  = (if is_stopped out.1.2
     then Py.slice_from (- default 20 (history_max_length cfg)) <$> appended
     else appended)
  /\ effects out.1.1
     = effects w
       ++ [CacheAppend session_id; CacheRead session_id; ProviderCall sent]
       ++ (if is_stopped out.1.2
           then [LockAcquire; CacheTrim]
                ++ (if disk_ok w then [FileWrite] else []) ++ [LockRelease]
           else []).
Proof.
  intros Hact Htpl Hrun session_id entry earlier appended sent out.
  assert (Hsent : analysis_prompt_for ctx ev req w template = sent).
  { unfold analysis_prompt_for. fold session_id entry.
    now rewrite history_for_analysis_append. }
  assert (Hstay : forall (ev' : event) (req' : request),
             is_stopped ev' = false ->
             history_cache (world_at_call ctx ev req w template, ev', req').1.1
             = (if is_stopped (world_at_call ctx ev req w template, ev', req').1.2
                then Py.slice_from (- default 20 (history_max_length cfg)) <$> appended
                else appended)
             /\ effects (world_at_call ctx ev req w template, ev', req').1.1
                = effects w
                  ++ [CacheAppend session_id; CacheRead session_id; ProviderCall sent]
                  ++ (if is_stopped (world_at_call ctx ev req w template, ev', req').1.2
                      then [LockAcquire; CacheTrim]
                           ++ (if disk_ok w then [FileWrite] else []) ++ [LockRelease]
                      else [])).
  { intros ev' req' Hev'. cbn [fst snd]. rewrite Hev'.
    split; [reflexivity |]. rewrite world_at_call_effects, Hsent, app_nil_r. reflexivity. }
  subst out.
  rewrite (interest_analyzer_calls cfg ctx draw ev req w _ _ Hact Htpl).
  destruct (analysis_provider _) as [response_text |]; [| now apply Hstay].
  destruct (apply_verdict_cases cfg draw ev req (world_at_call ctx ev req w template)
              response_text) as [-> | [-> | (e & ->)]].
  - now apply Hstay.
  - cbn [fst snd stop_event is_stopped]. split.
    + rewrite save_history_cache. reflexivity.
    + rewrite save_history_effects, world_at_call_effects, Hsent.
      rewrite <- !app_assoc. reflexivity.
  - now apply Hstay.
Qed.

End PastTheGates.

(** C7, as the code has it. Past the gates, the hook appends the user's
    turn to the session's log and then calls the provider: the append
    comes first in its effects and the turn is in the log it leaves, cut
    by the save when the event is stopped. The history handed to the
    template is rendered from the log without that turn, and the turn is
    what is rendered as the current message. *)
Theorem current_turn_excluded_from_context (L : PyLib) (cfg : config) (ctx : context)
    (draw : Q) (ev : event) (req : request) (w : world)
    (analysis_provider : provider) (template : string) :
  active_provider cfg ctx ev = Some analysis_provider ->
  analysis_system_prompt cfg = Some template ->
  is_stopped ev = false ->
  let session_id := unified_msg_origin ev in
  let entry := user_history_entry ev req in
  let earlier := read_log session_id w in
  let out := interest_analyzer cfg ctx draw ev req w in
  read_log session_id out.1.1
  = (if is_stopped out.1.2
     then Py.slice_from (- default 20 (history_max_length cfg)) (earlier ++ [entry])
     else earlier ++ [entry])
  /\ Py.slice_to (-1) (earlier ++ [entry]) = earlier
  /\ exists rest,
       effects out.1.1
       = effects w
         ++ [CacheAppend session_id; CacheRead session_id;
             ProviderCall
               (render_prompt template (awakening_context_str ev)
                  (Py.or_str (_get_current_persona_prompt ctx ev) (system_prompt req))
                  (format_history earlier) (format_history_entry entry))]
         ++ rest.
Proof.
  intros Hact Htpl Hrun session_id entry earlier out.
  destruct (interest_analyzer_past_gates cfg ctx draw ev req w _ _ Hact Htpl Hrun)
    as [Hcache Heff].
  fold session_id entry earlier out in Hcache, Heff.
  split; [| split; [apply slice_to_minus_one_snoc | eexists; exact Heff]].
  unfold read_log. rewrite Hcache.
  destruct (is_stopped out.1.2).
  - rewrite lookup_fmap, lookup_insert_eq. reflexivity.
  - rewrite lookup_insert_eq. reflexivity.
Qed.

Lemma current_turn_excluded_from_context_witness :
  read_log Demo.sid
    (interest_analyzer (L := reference_lib) (Demo.cfg 20 None)
       (Demo.ctx Demo.approve) (1 # 2) (Demo.ev "g1" false)
       (Demo.req (Some "four")) Demo.store).1.1
  = Demo.log3 ++ [Demo.user_turn "four"]
  /\ exists rest,
       effects
         (interest_analyzer (L := reference_lib) (Demo.cfg 20 None)
            (Demo.ctx Demo.approve) (1 # 2) (Demo.ev "g1" false)
            (Demo.req (Some "four")) Demo.store).1.1
       = [CacheAppend Demo.sid; CacheRead Demo.sid;
          ProviderCall
            ("/You are a patient tutor./user (Ann/u1): one" +:+ nl
             +:+ "assistant: two" +:+ nl
             +:+ "user (Ann/u1): three/user (Ann/u1): four")]
         ++ rest.
Proof.
  pose proof (current_turn_excluded_from_context reference_lib (Demo.cfg 20 None)
                (Demo.ctx Demo.approve) (1 # 2) (Demo.ev "g1" false)
                (Demo.req (Some "four")) Demo.store (fun _ => Some Demo.approve)
                "{awakening_context}/{persona}/{history}/{current_message}") as H.
  destruct H as (Hlog & _ & rest & Heff).
  - vm_compute. reflexivity.
  - reflexivity.
  - reflexivity.
  - split.
    + etransitivity; [apply Hlog | vm_compute; reflexivity].
    + exists rest. etransitivity; [apply Heff | vm_compute; reflexivity].
Defined.

(** C7, as stated, fails in its last clause. The placeholders are
    replaced one after another, the history before the current message:
    when an earlier turn holds the text of the last placeholder, the
    final [replace] puts the current message inside the history of the
    prompt that is sent. *)
Lemma current_message_inside_rendered_history :
  let cfg :=
    Config (Some ["g1"]) (Some "judge")
           (Some "History: {history} Now: {current_message}") None None None in
  let w :=
    World {[ Demo.sid := [Demo.user_turn "{current_message}"] ]} None true [] in
  let out :=
    interest_analyzer (L := reference_lib) cfg (Demo.ctx "no json here") (1 # 2)
      (Demo.ev "g1" false) (Demo.req (Some "secret")) w in
  read_log Demo.sid w = [Demo.user_turn "{current_message}"]
  /\ format_history_entry (user_history_entry (Demo.ev "g1" false) (Demo.req (Some "secret")))
     = "user (Ann/u1): secret"
  /\ effects out.1.1
     = [CacheAppend Demo.sid; CacheRead Demo.sid;
        ProviderCall
          "History: user (Ann/u1): user (Ann/u1): secret Now: user (Ann/u1): secret"].
Proof. vm_compute. repeat split; reflexivity. Qed.

(** C10. For a request with no prompt or an empty one, the turn the hook
    appends to the session's log carries the fixed placeholder, after the
    mention marker when the message addressed the responder, and the
    prompt the hook sends to the provider has that text, behind the
    sender, as the current message. *)
Theorem empty_prompt_placeholder (L : PyLib) (cfg : config) (ctx : context)
    (draw : Q) (ev : event) (req : request) (w : world)
    (analysis_provider : provider) (template : string) :
  prompt req = None \/ prompt req = Some EmptyString ->
  active_provider cfg ctx ev = Some analysis_provider ->
  analysis_system_prompt cfg = Some template ->
  is_stopped ev = false ->
  let session_id := unified_msg_origin ev in
  let text :=
    (if is_at_or_wake_command ev then "[Direct Mention] " else EmptyString)
    +:+ "User sent an empty or non-text message." in
  let entry :=
    {| role := "user";
       sender_id := Some (get_sender_id ev);
       sender_name := Some (get_sender_name ev);
       content := text;
       state := None |} in
  let out := interest_analyzer cfg ctx draw ev req w in
  read_log session_id out.1.1
  = (if is_stopped out.1.2
     then Py.slice_from (- default 20 (history_max_length cfg))
            (read_log session_id w ++ [entry])
     else read_log session_id w ++ [entry])
  /\ exists rest,
       effects out.1.1
       = effects w
         ++ [CacheAppend session_id; CacheRead session_id;
             ProviderCall
               (render_prompt template (awakening_context_str ev)
                  (Py.or_str (_get_current_persona_prompt ctx ev) (system_prompt req))
                  (format_history (read_log session_id w))
                  ("user (" +:+ get_sender_name ev +:+ "/" +:+ get_sender_id ev
                   +:+ "): " +:+ text))]
         ++ rest.
Proof.
  intros Hempty Hact Htpl Hrun session_id text entry out.
  assert (Hentry : user_history_entry ev req = entry).
  { subst entry text. unfold user_history_entry, current_message.
    destruct Hempty as [-> | ->]; destruct (is_at_or_wake_command ev); reflexivity. }
  destruct (interest_analyzer_past_gates cfg ctx draw ev req w _ _ Hact Htpl Hrun)
    as [Hcache Heff].
  fold session_id out in Hcache, Heff. rewrite Hentry in Hcache, Heff.
  split; [| eexists; exact Heff].
  unfold read_log at 1. rewrite Hcache.
  destruct (is_stopped out.1.2).
  - rewrite lookup_fmap, lookup_insert_eq. reflexivity.
  - rewrite lookup_insert_eq. reflexivity.
Qed.

Lemma empty_prompt_placeholder_witness :
  read_log Demo.sid
    (interest_analyzer (L := reference_lib) (Demo.cfg 20 None)
       (Demo.ctx Demo.approve) (1 # 2) (Demo.ev "g1" true)
       (Demo.req None) Demo.empty_store).1.1
  = [Demo.user_turn "[Direct Mention] User sent an empty or non-text message."]
  /\ exists rest,
       effects
         (interest_analyzer (L := reference_lib) (Demo.cfg 20 None)
            (Demo.ctx Demo.approve) (1 # 2) (Demo.ev "g1" true)
            (Demo.req None) Demo.empty_store).1.1
       = [CacheAppend Demo.sid; CacheRead Demo.sid;
          ProviderCall
            ("IMPORTANT CONTEXT: The user has directly awakened you.../"
             +:+ "You are a patient tutor./No previous conversation history./"
             +:+ "user (Ann/u1): [Direct Mention] User sent an empty or non-text message.")]
         ++ rest.
Proof.
  pose proof (empty_prompt_placeholder reference_lib (Demo.cfg 20 None)
                (Demo.ctx Demo.approve) (1 # 2) (Demo.ev "g1" true) (Demo.req None)
                Demo.empty_store (fun _ => Some Demo.approve)
                "{awakening_context}/{persona}/{history}/{current_message}") as H.
  destruct H as (Hlog & rest & Heff).
  - left. reflexivity.
  - vm_compute. reflexivity.
  - reflexivity.
  - reflexivity.
  - split.
    + etransitivity; [apply Hlog | vm_compute; reflexivity].
    + exists rest. etransitivity; [apply Heff | vm_compute; reflexivity].
Defined.

(** ** The clear command *)

(** C9. Clearing a session that has no log changes nothing and answers
    that there was nothing to clear. Clearing a session that has one
    removes it from the cache, then saves, and answers that the log was
    cleared: the deletion comes before the save in the effects, the file
    of a disk that can be written holds what the write of the remaining
    cache leaves, and reading the session afterwards gives the empty list
    and the view command answers that there is no history. *)
Theorem clear_history_reports (L : PyLib) (cfg : config) (ev : event) (w : world) :
  let session_id := unified_msg_origin ev in
  let out := clear_history cfg ev w in
  (history_cache w !! session_id = None ->
   out = (emit (CacheRead session_id) w, msg_nothing_to_clear))
  /\ (forall log,
         history_cache w !! session_id = Some log ->
         out.2 = msg_cleared
         /\ history_cache out.1 !! session_id = None
         /\ read_log session_id out.1 = []
         /\ (view_history ev out.1).2 = msg_no_history
         /\ history_cache out.1
            = Py.slice_from (- default 20 (history_max_length cfg))
                <$> delete session_id (history_cache w)
         /\ effects out.1
            = effects w
              ++ [CacheRead session_id; CacheDelete session_id;
                  LockAcquire; CacheTrim]
              ++ (if disk_ok w then [FileWrite] else []) ++ [LockRelease]
         /\ history_file out.1
            = (if disk_ok w
               then Some (Py.write_utf8
                            (json_dumps (Doc.json_of_history (history_cache out.1))))
               else history_file w)
         /\ (forall other, other <> session_id ->
               is_Some (history_cache out.1 !! other)
               <-> is_Some (history_cache w !! other)))
  /\ msg_cleared <> msg_nothing_to_clear.
Proof.
  intros session_id out. subst out. unfold clear_history. fold session_id.
  change (history_cache (emit (CacheRead session_id) w)) with (history_cache w).
  split; [intros ->; reflexivity |]. split; [| discriminate].
  intros log ->. cbn [fst snd].
  set (w1 := emit (CacheDelete session_id) _).
  assert (Hgone : history_cache (_save_history cfg w1) !! session_id = None).
  { apply save_history_sessions. apply lookup_delete_eq. }
  split; [reflexivity |]. split; [exact Hgone |].
  split; [unfold read_log; now rewrite Hgone |].
  split; [unfold view_history, read_log; fold session_id; now rewrite Hgone |].
  split; [apply save_history_cache |].
  split.
  { rewrite save_history_effects. subst w1. cbn [effects emit with_cache disk_ok].
    rewrite <- !app_assoc. reflexivity. }
  split; [exact (save_history_file cfg w1) |].
  intros other Hother. rewrite save_history_cache, lookup_fmap, fmap_is_Some.
  subst w1. cbn [history_cache emit with_cache].
  now rewrite lookup_delete_ne.
Qed.

Lemma clear_history_reports_witness :
  (clear_history (L := reference_lib) (Demo.cfg 20 None) (Demo.ev "g2" false)
     Demo.store).2 = msg_nothing_to_clear
  /\ (clear_history (L := reference_lib) (Demo.cfg 20 None) (Demo.ev "g1" false)
        Demo.store).2 = msg_cleared
  /\ read_log Demo.sid
       (clear_history (L := reference_lib) (Demo.cfg 20 None) (Demo.ev "g1" false)
          Demo.store).1 = []
  /\ (@json_loads reference_lib
        <$> history_file
              (clear_history (L := reference_lib) (Demo.cfg 20 None)
                 (Demo.ev "g1" false) Demo.store).1)
     = Some (Some (JObj [("aiocqhttp:FriendMessage:u9", JArr [])])).
Proof.
  split.
  - rewrite (proj1 (clear_history_reports reference_lib (Demo.cfg 20 None)
                      (Demo.ev "g2" false) Demo.store)).
    + reflexivity.
    + vm_compute. reflexivity.
  - destruct (proj1 (proj2 (clear_history_reports reference_lib (Demo.cfg 20 None)
                              (Demo.ev "g1" false) Demo.store)) Demo.log3)
      as (Hmsg & _ & Hread & _ & _ & _ & Hfile & _).
    + vm_compute. reflexivity.
    + split; [exact Hmsg |]. split; [exact Hread |].
      rewrite Hfile. vm_compute. reflexivity.
Defined.

(** ** The reference codec reads back what it writes *)

Lemma str_app_cons (c : ascii) (a b : string) :
  String c a +:+ b = String c (a +:+ b).
Proof. reflexivity. Qed.

Lemma str_app_nil (b : string) : EmptyString +:+ b = b.
Proof. reflexivity. Qed.

Lemma str_app_assoc (a b c : string) : (a +:+ b) +:+ c = a +:+ (b +:+ c).
Proof.
  induction a as [| x a IH]; [reflexivity |].
  rewrite !str_app_cons, IH. reflexivity.
Qed.

Lemma str_app_length (a b : string) :
  String.length (a +:+ b) = (String.length a + String.length b)%nat.
Proof.
  induction a as [| x a IH]; [reflexivity |].
  rewrite str_app_cons. simpl. rewrite IH. reflexivity.
Qed.

Ltac strnorm := rewrite ?str_app_assoc, ?str_app_cons, ?str_app_nil.

Lemma skip_ws_spaces (n : nat) (s : string) :
  RefJson.skip_ws (RefJson.spaces n +:+ s) = RefJson.skip_ws s.
Proof.
  induction n as [| n IH]; [reflexivity |].
  simpl RefJson.spaces. rewrite str_app_cons. simpl. exact IH.
Qed.

Lemma skip_ws_newline_indent (level : nat) (s : string) :
  RefJson.skip_ws (RefJson.newline_indent level +:+ s) = RefJson.skip_ws s.
Proof.
  unfold RefJson.newline_indent, nl. strnorm. simpl. apply skip_ws_spaces.
Qed.

Lemma parse_chars_escape_char (c : ascii) (tail : string) :
  RefJson.parse_chars (RefJson.escape_char c +:+ tail)
  = RefJson.prepend (String c EmptyString) (RefJson.parse_chars tail).
Proof.
  destruct c as [[] [] [] [] [] [] [] []]; reflexivity.
Qed.

Lemma parse_chars_escape (s rest : string) :
  RefJson.parse_chars (RefJson.escape s +:+ String RefJson.dq rest) = Some (s, rest).
Proof.
  induction s as [| c s IH]; [reflexivity |].
  simpl RefJson.escape. rewrite str_app_assoc, parse_chars_escape_char, IH.
  reflexivity.
Qed.

Lemma span_digits_uint (d : Decimal.uint) (rest : string) :
  not_digit_head rest = true ->
  RefJson.span_digits (NilEmpty.string_of_uint d +:+ rest)
  = (NilEmpty.string_of_uint d, rest).
Proof.
  intros Hrest.
  induction d as [| d IH | d IH | d IH | d IH | d IH | d IH | d IH | d IH | d IH | d IH];
    simpl NilEmpty.string_of_uint; rewrite ?str_app_cons, ?str_app_nil;
    try (simpl; rewrite IH; reflexivity).
  destruct rest as [| c rest]; [reflexivity |].
  simpl in *. destruct (RefJson.is_digit c); [discriminate | reflexivity].
Qed.

Lemma pos_to_uint_head (p : positive) :
  exists c t, NilEmpty.string_of_uint (Pos.to_uint p) = String c t
              /\ Ascii.eqb c "0" = false /\ RefJson.is_digit c = true.
Proof.
  pose proof (DecimalPos.Unsigned.to_uint_nonnil p) as Hnil.
  assert (Hnz : forall d', Pos.to_uint p <> Decimal.D0 d').
  { intros d' H.
    pose proof (DecimalPos.Unsigned.to_of (Pos.to_uint p)) as Hn.
    rewrite DecimalPos.Unsigned.of_to in Hn. simpl in Hn.
    rewrite H in Hn. rewrite DecimalFacts.unorm_D0 in Hn.
    destruct (Decimal.uint_eq_dec (Decimal.nzhead d') Decimal.Nil) as [E | E].
    - apply DecimalFacts.unorm_0 in E.
      apply (DecimalPos.Unsigned.to_uint_nonzero p).
      rewrite H, Hn. exact E.
    - rewrite DecimalFacts.unorm_nzhead in Hn by exact E.
      exact (DecimalFacts.nzhead_nonzero d' d' (eq_sym Hn)). }
  destruct (Pos.to_uint p) as [| d | d | d | d | d | d | d | d | d | d];
    simpl; try (eexists _, _; split; [reflexivity | split; reflexivity]).
  - contradiction.
  - exfalso. exact (Hnz d eq_refl).
Qed.

Lemma delimited_follows_number (rest : string) :
  delimited rest = true ->
  not_digit_head rest = true /\ RefJson.starts_fraction rest = false.
Proof.
  destruct rest as [| c rest]; [easy |].
  unfold delimited, not_digit_head, RefJson.starts_fraction.
  destruct c as [[] [] [] [] [] [] [] []]; simpl; intros H; try discriminate H; easy.
Qed.

Lemma str_of_Z_head (z : Z) :
  exists c t, Json.str_of_Z z = String c t /\ number_head c = true.
Proof.
  unfold Json.str_of_Z. destruct z as [| p | p]; simpl.
  - eexists _, _. split; reflexivity.
  - destruct (pos_to_uint_head p) as (c & t & E & _ & Hd).
    unfold NilZero.string_of_uint.
    destruct (Pos.to_uint p) eqn:Ep;
      [exfalso; exact (DecimalPos.Unsigned.to_uint_nonnil p Ep) | ..];
      (exists c, t; split; [exact E | unfold number_head; now rewrite Hd]).
  - eexists _, _. split; reflexivity.
Qed.

Lemma parse_int_unsigned (c : ascii) (t : string) :
  Ascii.eqb c "-" = false ->
  RefJson.parse_int (String c t)
  = match RefJson.parse_nat (String c t) with
    | Some (n, rest) =>
        if RefJson.starts_fraction rest then None else Some (JInt n, rest)
    | None => None
    end.
Proof.
  intros H. unfold RefJson.parse_int. rewrite H. cbn [mbind option_bind].
  destruct (RefJson.parse_nat (String c t)) as [[n rest] |]; reflexivity.
Qed.

Lemma parse_int_signed (t : string) :
  RefJson.parse_int (String "-" t)
  = match RefJson.parse_nat t with
    | Some (n, rest) =>
        if RefJson.starts_fraction rest then None else Some (JInt (- n), rest)
    | None => None
    end.
Proof.
  unfold RefJson.parse_int. cbn [mbind option_bind Ascii.eqb Bool.eqb].
  destruct (RefJson.parse_nat t) as [[n rest] |]; reflexivity.
Qed.

Lemma parse_int_str_of_Z (z : Z) (rest : string) :
  delimited rest = true ->
  RefJson.parse_int (Json.str_of_Z z +:+ rest) = Some (JInt z, rest).
Proof.
  intros Hrest. destruct (delimited_follows_number rest Hrest) as [Hnd Hnf].
  assert (Hs : forall p, NilZero.string_of_uint (Pos.to_uint p)
                         = NilEmpty.string_of_uint (Pos.to_uint p)).
  { intros p. unfold NilZero.string_of_uint.
    destruct (Pos.to_uint p) eqn:Ep;
      [exfalso; exact (DecimalPos.Unsigned.to_uint_nonnil p Ep) | reflexivity ..]. }
  assert (Hpos : forall p,
             RefJson.parse_nat (NilZero.string_of_uint (Pos.to_uint p) +:+ rest)
             = Some (Z.pos p, rest)).
  { intros p. destruct (pos_to_uint_head p) as (c & t & E & Hz & _).
    rewrite Hs. unfold RefJson.parse_nat.
    rewrite E at 1. rewrite str_app_cons, Hz.
    rewrite span_digits_uint by exact Hnd. rewrite NilEmpty.usu.
    destruct (Pos.to_uint p) eqn:Ep;
      [exfalso; exact (DecimalPos.Unsigned.to_uint_nonnil p Ep) | ..];
      rewrite <- Ep; unfold Z.of_uint; rewrite DecimalPos.Unsigned.of_to; reflexivity. }
  unfold Json.str_of_Z. destruct z as [| p | p]; simpl Z.to_int; unfold NilZero.string_of_int.
  - unfold RefJson.parse_int. simpl. rewrite !str_app_nil, Hnf. reflexivity.
  - destruct (pos_to_uint_head p) as (c & t & E & _ & Hd).
    assert (Hm : Ascii.eqb c "-" = false).
    { destruct c as [[] [] [] [] [] [] [] []]; try reflexivity; discriminate Hd. }
    pose proof (Hpos p) as Hp. rewrite Hs, E, str_app_cons in Hp.
    rewrite Hs, E, str_app_cons, (parse_int_unsigned _ _ Hm), Hp, Hnf. reflexivity.
  - rewrite str_app_cons, parse_int_signed, Hpos, Hnf. reflexivity.
Qed.

Lemma dumps_at_arr (level : nat) (v : jvalue) (vs : list jvalue) :
  RefJson.dumps_at level (JArr (v :: vs))
  = "[" +:+ RefJson.newline_indent (S level)
    +:+ Py.join ("," +:+ RefJson.newline_indent (S level))
          (map (RefJson.dumps_at (S level)) (v :: vs))
    +:+ RefJson.newline_indent level +:+ "]".
Proof. reflexivity. Qed.

Lemma dumps_at_obj (level : nat) (kv : string * jvalue) (kvs : list (string * jvalue)) :
  RefJson.dumps_at level (JObj (kv :: kvs))
  = "{" +:+ RefJson.newline_indent (S level)
    +:+ Py.join ("," +:+ RefJson.newline_indent (S level))
          (map (dumps_member (S level)) (kv :: kvs))
    +:+ RefJson.newline_indent level +:+ "}".
Proof. reflexivity. Qed.

Lemma join_cons2 (sep p q : string) (rest : list string) :
  Py.join sep (p :: q :: rest) = p +:+ sep +:+ Py.join sep (q :: rest).
Proof. reflexivity. Qed.

Lemma number_head_plain (c : ascii) :
  number_head c = true ->
  RefJson.is_ws c = false /\ Ascii.eqb c RefJson.dq = false
  /\ Ascii.eqb c "[" = false /\ Ascii.eqb c "{" = false
  /\ Ascii.eqb c "n" = false /\ Ascii.eqb c "t" = false
  /\ Ascii.eqb c "f" = false /\ Ascii.eqb c "]" = false
  /\ Ascii.eqb c "}" = false.
Proof.
  destruct c as [[] [] [] [] [] [] [] []]; intros H; try discriminate H;
    repeat split; reflexivity.
Qed.

(** A printed value starts with a character that is neither white space
    nor a closing bracket. *)
Lemma dumps_at_head (level : nat) (v : jvalue) :
  exists c t, RefJson.dumps_at level v = String c t
              /\ RefJson.is_ws c = false
              /\ Ascii.eqb c "]" = false /\ Ascii.eqb c "}" = false.
Proof.
  destruct v as [| [] | z | s | [| v vs] | [| kv kvs]];
    try (eexists _, _; split; [reflexivity | repeat split; reflexivity]).
  destruct (str_of_Z_head z) as (c & t & E & Hc).
  exists c, t. split; [exact E |].
  destruct (number_head_plain c Hc) as (? & _ & _ & _ & _ & _ & _ & ? & ?). auto.
Qed.

Lemma skip_ws_dumps_at (level : nat) (v : jvalue) (rest : string) :
  RefJson.skip_ws (RefJson.dumps_at level v +:+ rest)
  = RefJson.dumps_at level v +:+ rest.
Proof.
  destruct (dumps_at_head level v) as (c & t & E & Hws & _).
  rewrite E, str_app_cons. simpl. rewrite Hws. reflexivity.
Qed.

Lemma parse_value_indent (fuel level : nat) (s : string) :
  RefJson.parse_value fuel (RefJson.newline_indent level +:+ s)
  = RefJson.parse_value fuel s.
Proof.
  destruct fuel as [| fuel]; [reflexivity |].
  cbn [RefJson.parse_value]. rewrite skip_ws_newline_indent. reflexivity.
Qed.

Lemma parse_value_space (fuel : nat) (s : string) :
  RefJson.parse_value fuel (String " " s) = RefJson.parse_value fuel s.
Proof. destruct fuel as [| fuel]; reflexivity. Qed.

Lemma parse_value_string (fuel : nat) (s rest : string) :
  RefJson.parse_value (S fuel) (RefJson.dumps_str s +:+ rest) = Some (JStr s, rest).
Proof.
  unfold RefJson.dumps_str. rewrite str_app_cons, str_app_assoc, str_app_cons, str_app_nil.
  cbn [RefJson.parse_value]. simpl RefJson.skip_ws. cbn.
  rewrite parse_chars_escape. reflexivity.
Qed.

Lemma parse_value_int (fuel : nat) (z : Z) (rest : string) :
  delimited rest = true ->
  RefJson.parse_value (S fuel) (Json.str_of_Z z +:+ rest) = Some (JInt z, rest).
Proof.
  intros Hrest. pose proof (parse_int_str_of_Z z rest Hrest) as Hp.
  destruct (str_of_Z_head z) as (c & t & E & Hc).
  destruct (number_head_plain c Hc) as (Hws & H1 & H2 & H3 & H4 & H5 & H6 & _).
  rewrite E, str_app_cons in *.
  cbn [RefJson.parse_value]. simpl RefJson.skip_ws. rewrite Hws.
  rewrite H1, H2, H3, H4, H5, H6. exact Hp.
Qed.

Lemma join_map_cons2 {A} (sep : string) (f : A -> string) (x y : A) (l : list A) :
  Py.join sep (map f (x :: y :: l)) = f x +:+ sep +:+ Py.join sep (map f (y :: l)).
Proof. reflexivity. Qed.

Lemma list_sum_cons (x : nat) (l : list nat) :
  list_sum (x :: l) = (x + list_sum l)%nat.
Proof. reflexivity. Qed.

Lemma parse_elements_join (m level : nat) (items : list jvalue) (rest : string)
    (fuel : nat) :
  Forall reads_back items -> items <> [] ->
  (list_sum (map (fun x => S (size x)) items) <= fuel)%nat ->
  RefJson.parse_elements fuel
    (RefJson.newline_indent m
     +:+ Py.join ("," +:+ RefJson.newline_indent m) (map (RefJson.dumps_at m) items)
     +:+ RefJson.newline_indent level +:+ "]" +:+ rest)
  = Some (items, rest).
Proof.
  intros Hall. revert fuel.
  induction Hall as [| v vs Hv Hvs IH]; intros fuel Hne Hfuel; [congruence |].
  rewrite map_cons, list_sum_cons in Hfuel.
  destruct fuel as [| fuel]; [lia |].
  cbn [RefJson.parse_elements]. rewrite parse_value_indent.
  destruct vs as [| v2 vs].
  - cbn [map Py.join].
    rewrite (Hv m _ fuel); [| reflexivity | simpl in Hfuel; lia].
    cbn [mbind option_bind]. rewrite skip_ws_newline_indent. reflexivity.
  - rewrite join_map_cons2. rewrite !str_app_assoc.
    rewrite (Hv m _ fuel); [| reflexivity | lia].
    cbn [mbind option_bind]. rewrite str_app_cons, str_app_nil.
    simpl RefJson.skip_ws. cbn [Ascii.eqb Bool.eqb].
    rewrite <- !str_app_assoc. rewrite !str_app_assoc.
    rewrite IH; [reflexivity | discriminate | lia].
Qed.

Lemma parse_members_indent (fuel level : nat) (s : string) :
  RefJson.parse_members fuel (RefJson.newline_indent level +:+ s)
  = RefJson.parse_members fuel s.
Proof.
  destruct fuel as [| fuel]; [reflexivity |].
  cbn [RefJson.parse_members]. rewrite skip_ws_newline_indent. reflexivity.
Qed.

Lemma parse_members_member (fuel : nat) (k tail : string) :
  RefJson.parse_members (S fuel) (RefJson.dumps_str k +:+ ": " +:+ tail)
  = match RefJson.parse_value fuel tail with
    | Some (v, rest1) =>
        match RefJson.skip_ws rest1 with
        | EmptyString => None
        | String c2 t2 =>
            if Ascii.eqb c2 ","
            then match RefJson.parse_members fuel t2 with
                 | Some (ms, rest2) => Some ((k, v) :: ms, rest2)
                 | None => None
                 end
            else if Ascii.eqb c2 "}" then Some ([(k, v)], t2) else None
        end
    | None => None
    end.
Proof.
  unfold RefJson.dumps_str. rewrite str_app_cons, str_app_assoc, !str_app_cons, !str_app_nil.
  cbn [RefJson.parse_members]. simpl RefJson.skip_ws. cbn [Ascii.eqb Bool.eqb RefJson.dq].
  rewrite parse_chars_escape. cbn [mbind option_bind].
  simpl RefJson.skip_ws. cbn [Ascii.eqb Bool.eqb].
  rewrite parse_value_space.
  destruct (RefJson.parse_value fuel tail) as [[v rest1] |]; [| reflexivity].
  cbn [mbind option_bind].
  destruct (RefJson.skip_ws rest1) as [| c2 t2]; [reflexivity |].
  destruct (Ascii.eqb c2 ","); [| reflexivity].
  destruct (RefJson.parse_members fuel t2) as [[ms rest2] |]; reflexivity.
Qed.

Lemma parse_members_join (m level : nat) (members : list (string * jvalue))
    (rest : string) (fuel : nat) :
  Forall (fun kv => reads_back (snd kv)) members -> members <> [] ->
  (list_sum (map (fun kv => S (size (snd kv))) members) <= fuel)%nat ->
  RefJson.parse_members fuel
    (RefJson.newline_indent m
     +:+ Py.join ("," +:+ RefJson.newline_indent m) (map (dumps_member m) members)
     +:+ RefJson.newline_indent level +:+ "}" +:+ rest)
  = Some (members, rest).
Proof.
  intros Hall. revert fuel.
  induction Hall as [| [k v] kvs Hv Hvs IH]; intros fuel Hne Hfuel; [congruence |].
  rewrite map_cons, list_sum_cons in Hfuel. cbn [snd] in Hfuel, Hv.
  destruct fuel as [| fuel]; [lia |].
  rewrite parse_members_indent.
  destruct kvs as [| kv2 kvs].
  - cbn [map Py.join]. unfold dumps_member at 1. cbn [fst snd].
    rewrite !str_app_assoc, parse_members_member.
    rewrite (Hv m _ fuel); [| reflexivity | simpl in Hfuel; lia].
    rewrite skip_ws_newline_indent. reflexivity.
  - rewrite join_map_cons2. unfold dumps_member at 1. cbn [fst snd].
    rewrite !str_app_assoc, parse_members_member.
    rewrite (Hv m _ fuel); [| reflexivity | lia].
    rewrite str_app_cons, str_app_nil.
    simpl RefJson.skip_ws. cbn [Ascii.eqb Bool.eqb].
    rewrite <- !str_app_assoc. rewrite !str_app_assoc.
    rewrite IH; [reflexivity | discriminate | lia].
Qed.

Lemma parse_value_open_bracket (fuel : nat) (t : string) (c1 : ascii) (t1 : string) :
  RefJson.skip_ws t = String c1 t1 -> Ascii.eqb c1 "]" = false ->
  RefJson.parse_value (S fuel) (String "[" t)
  = match RefJson.parse_elements fuel t with
    | Some (items, rest) => Some (JArr items, rest)
    | None => None
    end.
Proof.
  intros Hskip Hc. cbn [RefJson.parse_value]. simpl RefJson.skip_ws.
  cbn [Ascii.eqb Bool.eqb RefJson.dq]. rewrite Hskip, Hc.
  destruct (RefJson.parse_elements fuel t) as [[items rest] |]; reflexivity.
Qed.

Lemma parse_value_open_brace (fuel : nat) (t : string) (c1 : ascii) (t1 : string) :
  RefJson.skip_ws t = String c1 t1 -> Ascii.eqb c1 "}" = false ->
  RefJson.parse_value (S fuel) (String "{" t)
  = match RefJson.parse_members fuel t with
    | Some (members, rest) => Some (JObj members, rest)
    | None => None
    end.
Proof.
  intros Hskip Hc. cbn [RefJson.parse_value]. simpl RefJson.skip_ws.
  cbn [Ascii.eqb Bool.eqb RefJson.dq]. rewrite Hskip, Hc.
  destruct (RefJson.parse_members fuel t) as [[members rest] |]; reflexivity.
Qed.

Lemma join_items_head (sep : string) (m : nat) (v : jvalue) (vs : list jvalue) :
  exists c t,
    Py.join sep (map (RefJson.dumps_at m) (v :: vs)) = String c t
    /\ RefJson.is_ws c = false /\ Ascii.eqb c "]" = false.
Proof.
  destruct (dumps_at_head m v) as (c & t & E & Hws & Hc & _).
  destruct vs as [| v2 vs].
  - exists c, t. cbn [map Py.join]. auto.
  - exists c, (t +:+ sep +:+ Py.join sep (map (RefJson.dumps_at m) (v2 :: vs))).
    rewrite join_map_cons2, E, str_app_cons. auto.
Qed.

Lemma join_members_head (sep : string) (m : nat) (kv : string * jvalue)
    (kvs : list (string * jvalue)) :
  exists t, Py.join sep (map (dumps_member m) (kv :: kvs)) = String RefJson.dq t.
Proof.
  destruct kvs as [| kv2 kvs].
  - cbn [map Py.join]. unfold dumps_member, RefJson.dumps_str.
    rewrite str_app_cons. eauto.
  - rewrite join_map_cons2. unfold dumps_member at 1, RefJson.dumps_str.
    rewrite str_app_cons. eauto.
Qed.

Lemma size_arr (items : list jvalue) :
  size (JArr items) = S (list_sum (map (fun x => S (size x)) items)).
Proof. reflexivity. Qed.

Lemma size_obj (members : list (string * jvalue)) :
  size (JObj members) = S (list_sum (map (fun kv => S (size (snd kv))) members)).
Proof. reflexivity. Qed.

Lemma reads_back_all (v : jvalue) : reads_back v.
Proof.
  induction v as [| b | z | s | items IH | members IH] using jvalue_nested_ind;
    intros level rest fuel Hrest Hfuel;
    (destruct fuel as [| fuel]; [simpl in Hfuel; lia |]).
  - reflexivity.
  - destruct b; reflexivity.
  - apply parse_value_int. exact Hrest.
  - apply parse_value_string.
  - destruct items as [| v vs]; [reflexivity |].
    rewrite dumps_at_arr. rewrite !str_app_assoc, str_app_cons, str_app_nil.
    destruct (join_items_head ("," +:+ RefJson.newline_indent (S level)) (S level) v vs)
      as (c & t & E & Hws & Hc).
    erewrite parse_value_open_bracket;
      [| rewrite skip_ws_newline_indent, E, str_app_cons; simpl; rewrite Hws; reflexivity
       | exact Hc].
    rewrite (parse_elements_join (S level) level (v :: vs) rest fuel IH);
      [reflexivity | discriminate | rewrite size_arr in Hfuel; lia].
  - destruct members as [| kv kvs]; [reflexivity |].
    rewrite dumps_at_obj. rewrite !str_app_assoc, str_app_cons, str_app_nil.
    destruct (join_members_head ("," +:+ RefJson.newline_indent (S level)) (S level) kv kvs)
      as (t & E).
    erewrite parse_value_open_brace;
      [| rewrite skip_ws_newline_indent, E, str_app_cons; reflexivity
       | reflexivity].
    rewrite (parse_members_join (S level) level (kv :: kvs) rest fuel IH);
      [reflexivity | discriminate | rewrite size_obj in Hfuel; lia].
Qed.

Lemma str_app_nil_r (s : string) : s +:+ EmptyString = s.
Proof. induction s as [| c s IH]; [reflexivity |]. rewrite str_app_cons, IH. reflexivity. Qed.

Lemma newline_indent_length (level : nat) :
  (1 <= String.length (RefJson.newline_indent level))%nat.
Proof. unfold RefJson.newline_indent, nl. rewrite str_app_cons. simpl. lia. Qed.

Lemma join_length_bound {A} (sep : string) (pr : A -> string) (weight : A -> nat)
    (items : list A) :
  (1 <= String.length sep)%nat ->
  Forall (fun x => (weight x <= String.length (pr x))%nat) items ->
  (list_sum (map (fun x => S (weight x)) items)
   <= String.length (Py.join sep (map pr items)) + 1)%nat.
Proof.
  intros Hsep Hall. induction Hall as [| x l Hx Hl IH]; [simpl; lia |].
  rewrite map_cons, list_sum_cons. destruct l as [| y l].
  - cbn [map Py.join list_sum]. simpl. lia.
  - rewrite join_map_cons2, !str_app_length. lia.
Qed.

Lemma size_le_length (v : jvalue) :
  forall level, (size v <= String.length (RefJson.dumps_at level v))%nat.
Proof.
  induction v as [| b | z | s | items IH | members IH] using jvalue_nested_ind;
    intros level.
  - simpl. lia.
  - destruct b; simpl; lia.
  - destruct (str_of_Z_head z) as (c & t & E & _).
    change (RefJson.dumps_at level (JInt z)) with (Json.str_of_Z z).
    rewrite E. simpl. lia.
  - simpl. lia.
  - destruct items as [| v vs]; [simpl; lia |].
    rewrite size_arr, dumps_at_arr, !str_app_length.
    pose proof (newline_indent_length (S level)).
    pose proof (newline_indent_length level).
    pose proof (join_length_bound ("," +:+ RefJson.newline_indent (S level))
                  (RefJson.dumps_at (S level)) size (v :: vs)) as Hj.
    simpl String.length at 1.
    assert (1 <= String.length ("," +:+ RefJson.newline_indent (S level)))%nat
      by (rewrite str_app_length; simpl; lia).
    specialize (Hj ltac:(assumption)).
    assert (Hall : Forall
                     (fun x => (size x <= String.length (RefJson.dumps_at (S level) x))%nat)
                     (v :: vs)).
    { eapply Forall_impl; [exact IH |]. intros x Hx. apply Hx. }
    specialize (Hj Hall). lia.
  - destruct members as [| kv kvs]; [simpl; lia |].
    rewrite size_obj, dumps_at_obj, !str_app_length.
    pose proof (newline_indent_length (S level)).
    pose proof (newline_indent_length level).
    pose proof (join_length_bound ("," +:+ RefJson.newline_indent (S level))
                  (dumps_member (S level)) (fun kv => size (snd kv)) (kv :: kvs)) as Hj.
    simpl String.length at 1.
    assert (1 <= String.length ("," +:+ RefJson.newline_indent (S level)))%nat
      by (rewrite str_app_length; simpl; lia).
    specialize (Hj ltac:(assumption)).
    assert (Hall : Forall
                     (fun kv : string * jvalue =>
                        (size (snd kv) <= String.length (dumps_member (S level) kv))%nat)
                     (kv :: kvs)).
    { eapply Forall_impl; [exact IH |]. intros x Hx. cbn beta in Hx.
      unfold dumps_member. rewrite !str_app_length. specialize (Hx (S level)). lia. }
    specialize (Hj Hall). lia.
Qed.

(** The reference codec satisfies the law the library is assumed to have. *)
Lemma reference_round_trip : JsonRoundTrip reference_lib.
Proof.
  intros v. change (RefJson.loads (RefJson.dumps v) = Some v).
  unfold RefJson.loads, RefJson.dumps.
  pose proof (reads_back_all v 0%nat EmptyString
                (S (String.length (RefJson.dumps_at 0 v))) eq_refl) as H.
  rewrite str_app_nil_r in H. rewrite H; [reflexivity |].
  pose proof (size_le_length v 0%nat). lia.
Qed.

(** ** The history document and the round trip *)

Lemma emotion_of_json_of_emotion (e : emotion) :
  Doc.emotion_of_json (Doc.json_of_emotion e) = Some e.
Proof. destruct e. reflexivity. Qed.

Lemma turn_of_json_of_turn (t : turn) :
  Doc.turn_of_json (Doc.json_of_turn t) = Some t.
Proof.
  destruct t as [r sid sname c st].
  destruct sid, sname, st as [[i f] |]; reflexivity.
Qed.

Lemma log_of_json_of_log (log : list turn) :
  Doc.log_of_json (Doc.json_of_log log) = Some log.
Proof.
  unfold Doc.log_of_json, Doc.json_of_log.
  induction log as [| t log IH]; [reflexivity |].
  cbn [map mapM]. rewrite turn_of_json_of_turn. cbn. rewrite IH. reflexivity.
Qed.

Lemma history_of_members_fold (l : list (string * list turn))
    (acc : gmap string (list turn)) :
  Doc.history_of_members (map (fun kv => (kv.1, Doc.json_of_log kv.2)) l) acc
  = Some (foldl (fun m kv => <[kv.1 := kv.2]> m) acc l).
Proof.
  revert acc. induction l as [| [k log] l IH]; intros acc; [reflexivity |].
  cbn [map Doc.history_of_members fst snd]. rewrite log_of_json_of_log.
  rewrite IH. reflexivity.
Qed.

Lemma foldl_insert_list_to_map (l : list (string * list turn)) :
  foldl (fun m kv => <[kv.1 := kv.2]> m) (∅ : gmap string (list turn)) l
  = list_to_map (reverse l).
Proof.
  induction l as [| [k log] l IH] using rev_ind; [reflexivity |].
  rewrite foldl_app, reverse_snoc, IH. reflexivity.
Qed.

Lemma history_of_json_of_history (h : gmap string (list turn)) :
  Doc.history_of_json (Doc.json_of_history h) = Some h.
Proof.
  unfold Doc.history_of_json, Doc.json_of_history.
  rewrite history_of_members_fold, foldl_insert_list_to_map. f_equal.
  rewrite <- (list_to_map_to_list h) at 2.
  apply list_to_map_proper.
  - rewrite fmap_reverse, reverse_Permutation. apply NoDup_fst_map_to_list.
  - apply reverse_Permutation.
Qed.




(** ** The scenarios of the specification, run on the reference library *)

Example parse_verdict_busy :
  parse_verdict (L := reference_lib)
    ("sure, here you go: {" +:+ Demo.q "should_reply" +:+ ": false, "
     +:+ Demo.q "reason" +:+ ": " +:+ Demo.q "busy" +:+ "}")
  = Some [("should_reply", JBool false); ("reason", JStr "busy")].
Proof. vm_compute. reflexivity. Qed.

Example declined_reply_is_stopped_and_saved :
  let out :=
    interest_analyzer (L := reference_lib) (Demo.cfg 20 None)
      (Demo.ctx ("{" +:+ Demo.q "should_reply" +:+ ": false}"))
      (1 # 2) (Demo.ev "g1" false) (Demo.req (Some "hello")) Demo.empty_store in
  is_stopped out.1.2 = true
  /\ out.2 = Demo.req (Some "hello")
  /\ effects out.1.1
     = [CacheAppend Demo.sid; CacheRead Demo.sid;
        ProviderCall "/You are a patient tutor./No previous conversation history./user (Ann/u1): hello";
        LockAcquire; CacheTrim; FileWrite; LockRelease].
Proof. vm_compute. repeat split; reflexivity. Qed.

Example end_to_end :
  let out :=
    interest_analyzer (L := reference_lib) (Demo.cfg 20 (Some 1%Q))
      (Demo.ctx Demo.approve) (999 # 1000) (Demo.ev "g1" false)
      (Demo.req (Some "hello")) Demo.empty_store in
  let after :=
    save_llm_reply_to_history (L := reference_lib) (Demo.cfg 20 (Some 1%Q))
      out.1.2 (Response "hi there") out.1.1 in
  prompt out.2
  = Some ("User's message is: " +:+ Demo.q "hello" +:+ nl +:+ nl
          +:+ "[[System Note: Your current state is - Interest: 'high', "
          +:+ "Feeling: 'curious'. You MUST respond according to this state.]]")
  /\ is_stopped out.1.2 = false
  /\ read_log Demo.sid after
     = [Demo.user_turn "hello";
        Turn "assistant" None None "hi there"
             (Some (Emotion (JStr "high") (JStr "curious")))]
  /\ (@json_loads reference_lib <$> history_file after)
     = Some (Some (Doc.json_of_history (history_cache after))).
Proof. vm_compute. repeat split; reflexivity. Qed.

Example positive_cap_keeps_the_latest :
  read_log Demo.sid (_save_history (L := reference_lib) (Demo.cfg 2 None) Demo.store)
  = [Demo.bot_turn "two"; Demo.user_turn "three"].
Proof. vm_compute. reflexivity. Qed.

(** * Further properties of the plugin *)

(** ** Loading and saving *)

(** X1. [_load_history], lines 32-40: with no file, a file that cannot be
    opened, or one the decoder refuses, the cache and the file stay as they
    are and the lock is released; a plugin starting with no file starts
    with an empty cache. *)
Theorem load_history_without_document (L : PyLib) (w : world) :
  history_file w = None \/ disk_ok w = false
  \/ (exists text, history_file w = Some text /\ json_loads text = None) ->
  history_cache (_load_history w) = history_cache w
  /\ history_file (_load_history w) = history_file w
  /\ last (effects (_load_history w)) = Some LockRelease
  /\ (forall disk, history_cache (init None disk) = ∅).
Proof.
  intros H. destruct w as [cache file disk es]. cbn [history_file disk_ok history_cache] in *.
  unfold _load_history, emit, with_cache.
  cbn [history_file disk_ok history_cache effects].
  split; [| split; [| split; [| reflexivity]]].
  - destruct H as [-> | [-> | (text & -> & Hbad)]].
    + reflexivity.
    + destruct file; reflexivity.
    + destruct disk; [| reflexivity]. rewrite Hbad. reflexivity.
  - destruct file as [text |]; [| reflexivity].
    destruct disk; [| reflexivity].
    destruct (json_loads text ≫= Doc.history_of_json); reflexivity.
  - destruct file as [text |]; [| apply last_snoc].
    destruct disk; [| apply last_snoc].
    destruct (json_loads text ≫= Doc.history_of_json); apply last_snoc.
Qed.

Lemma load_history_without_document_witness :
  history_cache
    (_load_history (L := reference_lib)
       (World (history_cache Demo.store) (Some "{broken") true []))
  = history_cache Demo.store.
Proof.
  apply (load_history_without_document reference_lib
           (World (history_cache Demo.store) (Some "{broken") true [])).
  right. right. exists "{broken". split; [reflexivity | vm_compute; reflexivity].
Defined.

Lemma most_recent_twice {A} (n : nat) (l : list A) :
  Spec.most_recent n (Spec.most_recent n l) = Spec.most_recent n l.
Proof.
  unfold Spec.most_recent at 1. rewrite most_recent_length.
  replace (Nat.min n (length l) - n)%nat with 0%nat by lia. reflexivity.
Qed.

Lemma slice_from_neg_twice {A} (n : Z) (l : list A) :
  0 <= n -> Py.slice_from (- n) (Py.slice_from (- n) l) = Py.slice_from (- n) l.
Proof.
  intros Hn. destruct (Z.eq_dec n 0) as [-> | Hne].
  - now rewrite !(slice_from_zero l).
  - rewrite !slice_from_neg by lia. apply most_recent_twice.
Qed.

(** X2. [_save_history], lines 42-52: with a cap that is not negative,
    saving twice leaves the cache and the file as saving once does. *)
Theorem save_history_twice (L : PyLib) (cfg : config) (w : world) :
  0 <= default 20 (history_max_length cfg) ->
  history_cache (_save_history cfg (_save_history cfg w))
  = history_cache (_save_history cfg w)
  /\ history_file (_save_history cfg (_save_history cfg w))
     = history_file (_save_history cfg w).
Proof.
  intros Hn.
  assert (Hc : history_cache (_save_history cfg (_save_history cfg w))
               = history_cache (_save_history cfg w)).
  { rewrite (save_history_cache cfg (_save_history cfg w)), save_history_cache.
    apply map_eq. intros k. rewrite !lookup_fmap.
    destruct (history_cache w !! k) as [l |]; [| reflexivity].
    cbn. f_equal. apply slice_from_neg_twice. exact Hn. }
  split; [exact Hc |].
  rewrite (save_history_file cfg (_save_history cfg w)), save_history_disk_ok, Hc.
  rewrite (save_history_file cfg w). destruct (disk_ok w); reflexivity.
Qed.

Lemma save_history_twice_witness :
  history_cache
    (_save_history (L := reference_lib) (Demo.cfg 2 None)
       (_save_history (L := reference_lib) (Demo.cfg 2 None) Demo.store))
  = history_cache (_save_history (L := reference_lib) (Demo.cfg 2 None) Demo.store).
Proof.
  apply (save_history_twice reference_lib (Demo.cfg 2 None) Demo.store).
  vm_compute. discriminate.
Defined.

(** X3. [_save_history], lines 45-47: with a positive cap a log is split
    into the turns dropped and the turns kept, the kept ones being its
    last [min cap length] turns in their order; a log within the cap is
    kept whole. *)
Theorem save_history_keeps_most_recent (L : PyLib) (cfg : config) (w : world)
    (session_id : string) (log : list turn) :
  0 < default 20 (history_max_length cfg) ->
  history_cache w !! session_id = Some log ->
  let cap := Z.to_nat (default 20 (history_max_length cfg)) in
  exists dropped kept,
    log = dropped ++ kept
    /\ history_cache (_save_history cfg w) !! session_id = Some kept
    /\ length kept = Nat.min cap (length log)
    /\ ((length log <= cap)%nat -> kept = log).
Proof.
  intros Hn Hlog cap.
  exists (take (length log - cap) log), (Spec.most_recent cap log).
  split; [symmetry; apply most_recent_suffix |].
  split.
  - rewrite save_history_cache, lookup_fmap, Hlog. cbn.
    rewrite slice_from_neg by exact Hn. reflexivity.
  - split; [apply most_recent_length |].
    intros Hle. unfold Spec.most_recent.
    replace (length log - cap)%nat with 0%nat by lia. reflexivity.
Qed.

Lemma save_history_keeps_most_recent_witness :
  exists dropped kept,
    Demo.log3 = dropped ++ kept
    /\ history_cache (_save_history (L := reference_lib) (Demo.cfg 2 None) Demo.store)
       !! Demo.sid = Some kept
    /\ length kept = 2%nat.
Proof.
  destruct (save_history_keeps_most_recent reference_lib (Demo.cfg 2 None) Demo.store
              Demo.sid Demo.log3) as (dropped & kept & H1 & H2 & H3 & _).
  - reflexivity.
  - vm_compute. reflexivity.
  - exists dropped, kept. split; [exact H1 |]. split; [exact H2 | exact H3].
Defined.

(** X4. [_save_history], line 47: a negative cap [n] makes the slice
    [[-n:]] start at position [-n], so every save drops the [-n] oldest
    turns of each log, whatever its length. *)
Theorem save_history_negative_cap (L : PyLib) (cfg : config) (w : world)
    (session_id : string) (log : list turn) :
  default 20 (history_max_length cfg) < 0 ->
  history_cache w !! session_id = Some log ->
  history_cache (_save_history cfg w) !! session_id
  = Some (drop (Z.to_nat (- default 20 (history_max_length cfg))) log).
Proof.
  intros Hn Hlog. rewrite save_history_cache, lookup_fmap, Hlog. cbn. f_equal.
  unfold Py.slice_from, Py.slice_index.
  destruct (Z.ltb_spec (- default 20 (history_max_length cfg)) 0) as [H | _]; [lia |].
  destruct (Nat.le_gt_cases (Z.to_nat (- default 20 (history_max_length cfg)))
              (length log)) as [Hle | Hgt].
  - rewrite Nat.min_l by exact Hle. reflexivity.
  - rewrite Nat.min_r by lia. rewrite !drop_ge by lia. reflexivity.
Qed.

Lemma save_history_negative_cap_witness :
  history_cache (_save_history (L := reference_lib) (Demo.cfg (-1) None) Demo.store)
  !! Demo.sid
  = Some [Demo.bot_turn "two"; Demo.user_turn "three"].
Proof.
  etransitivity.
  - apply (save_history_negative_cap reference_lib (Demo.cfg (-1) None) Demo.store
             Demo.sid Demo.log3); [reflexivity | vm_compute; reflexivity].
  - reflexivity.
Defined.

(** X5. [_save_history], lines 44-52: when the file cannot be opened the
    failure is swallowed: the file is as it was, the logs are cut in the
    cache all the same, and the lock is released. *)
Theorem save_history_disk_failure (L : PyLib) (cfg : config) (w : world) :
  disk_ok w = false ->
  history_file (_save_history cfg w) = history_file w
  /\ history_cache (_save_history cfg w)
     = Py.slice_from (- default 20 (history_max_length cfg)) <$> history_cache w
  /\ effects (_save_history cfg w)
     = effects w ++ [LockAcquire; CacheTrim; LockRelease].
Proof.
  intros Hd. split; [rewrite save_history_file, Hd; reflexivity |].
  split; [apply save_history_cache |].
  rewrite save_history_effects, Hd. reflexivity.
Qed.

Lemma save_history_disk_failure_witness :
  history_file
    (_save_history (L := reference_lib) (Demo.cfg 2 None)
       (World (history_cache Demo.store) (Some "old") false []))
  = Some "old".
Proof.
  apply (save_history_disk_failure reference_lib (Demo.cfg 2 None)
           (World (history_cache Demo.store) (Some "old") false [])).
  reflexivity.
Defined.

(** ** The request hook and the reply hook *)

(** X6. [interest_analyzer], lines 81-88: on a platform other than
    aiocqhttp, with no provider id configured or an empty one, or with an
    id the host does not know, the hook leaves the world, the event and
    the request as they are. *)
Theorem unsupported_platform_or_provider_untouched (L : PyLib) (cfg : config)
    (ctx : context) (draw : Q) (ev : event) (req : request) (w : world) :
  get_platform_name ev <> "aiocqhttp"
  \/ analysis_provider_id cfg = None
  \/ analysis_provider_id cfg = Some EmptyString
  \/ (exists provider_id,
        analysis_provider_id cfg = Some provider_id
        /\ get_provider_by_id ctx provider_id = None) ->
  interest_analyzer cfg ctx draw ev req w = (w, ev, req).
Proof.
  intros H. apply interest_analyzer_inactive. unfold active_provider.
  destruct (whitelisted cfg ev); [| reflexivity]. cbn [negb].
  destruct H as [Hp | [-> | [-> | (provider_id & -> & Hnone)]]].
  - destruct (String.eqb_spec (get_platform_name ev) "aiocqhttp"); [contradiction | reflexivity].
  - destruct (String.eqb _ _); reflexivity.
  - destruct (String.eqb _ _); reflexivity.
  - destruct (String.eqb _ _); [| reflexivity]. cbn [negb].
    destruct (Py.truthy_str provider_id); [exact Hnone | reflexivity].
Qed.

Lemma unsupported_platform_or_provider_untouched_witness :
  interest_analyzer (L := reference_lib)
    (Config (Some ["g1"]) (Some "nobody") (Some "{history}") None None None)
    (Demo.ctx Demo.approve) (1 # 2) (Demo.ev "g1" false)
    (Demo.req (Some "hello")) Demo.store
  = (Demo.store, Demo.ev "g1" false, Demo.req (Some "hello")).
Proof.
  apply unsupported_platform_or_provider_untouched.
  right. right. right. exists "nobody". split; reflexivity.
Defined.

(** X7. [interest_analyzer] and [save_llm_reply_to_history]: neither hook
    nor a save ever removes a session; a session in the cache before is in
    the cache after. *)
Theorem hooks_never_remove_a_session (L : PyLib) (cfg : config) (ctx : context)
    (draw : Q) (ev : event) (req : request) (resp : response) (w : world)
    (session_id : string) :
  is_Some (history_cache w !! session_id) ->
  is_Some (history_cache (_save_history cfg w) !! session_id)
  /\ is_Some (history_cache (interest_analyzer cfg ctx draw ev req w).1.1 !! session_id)
  /\ is_Some (history_cache (save_llm_reply_to_history cfg ev resp w) !! session_id).
Proof.
  intros Hin.
  assert (Hsave : forall w0, is_Some (history_cache w0 !! session_id) ->
                             is_Some (history_cache (_save_history cfg w0) !! session_id)).
  { intros w0 H0. rewrite save_history_cache, lookup_fmap. now apply fmap_is_Some. }
  assert (Hins : forall s (log : list turn),
             is_Some ((<[s := log]> (history_cache w)) !! session_id)).
  { intros s log. destruct (decide (s = session_id)) as [-> | Hne].
    - rewrite lookup_insert_eq. eauto.
    - now rewrite lookup_insert_ne. }
  split; [now apply Hsave |]. split.
  - destruct (interest_analyzer_cases cfg ctx draw ev req w)
      as [-> | (w1 & Hc & _ & _ & [-> | [-> | (e & ->)]])]; cbn [fst];
      try exact Hin; try apply Hsave; rewrite Hc; apply Hins.
  - unfold save_llm_reply_to_history.
    destruct (negb (whitelisted cfg ev)); [exact Hin |].
    destruct (Py.truthy_str (completion_text resp)); [| exact Hin].
    apply Hsave. unfold append_turn. cbn [history_cache emit with_cache]. apply Hins.
Qed.

Lemma hooks_never_remove_a_session_witness :
  is_Some
    (history_cache
       (interest_analyzer (L := reference_lib) (Demo.cfg 1 None)
          (Demo.ctx "{}") (1 # 2) (Demo.ev "g1" false)
          (Demo.req (Some "hello")) Demo.store).1.1
     !! "aiocqhttp:FriendMessage:u9").
Proof.
  apply (hooks_never_remove_a_session reference_lib (Demo.cfg 1 None)
           (Demo.ctx "{}") (1 # 2) (Demo.ev "g1" false) (Demo.req (Some "hello"))
           (Response "hi") Demo.store "aiocqhttp:FriendMessage:u9").
  vm_compute. eauto.
Defined.

(** X8. [interest_analyzer], lines 128-158 with [_save_history]: for an
    event that is not yet stopped, the hook saves exactly when it stops
    the event. If the event comes out stopped the request is untouched
    and the file of a disk that can be written holds what the write of
    the cache leaves: its document, or nothing when the document cannot
    be encoded. If not, the file is as it was and every other session's
    log is as it was. *)
Theorem request_hook_saves_exactly_when_it_stops (L : PyLib) (cfg : config)
    (ctx : context) (draw : Q) (ev : event) (req : request) (w : world) :
  is_stopped ev = false ->
  let out := interest_analyzer cfg ctx draw ev req w in
  (is_stopped out.1.2 = true ->
   out.2 = req
   /\ history_file out.1.1
      = (if disk_ok w
         then Some (Py.write_utf8
                      (json_dumps (Doc.json_of_history (history_cache out.1.1))))
         else history_file w))
  /\ (is_stopped out.1.2 = false ->
      history_file out.1.1 = history_file w
      /\ forall other, other <> unified_msg_origin ev ->
           history_cache out.1.1 !! other = history_cache w !! other).
Proof.
  intros Hrun out. subst out.
  destruct (interest_analyzer_cases cfg ctx draw ev req w)
    as [-> | (w1 & Hc & Hf & Hd & [-> | [-> | (e & ->)]])]; cbn [fst snd].
  - split; [congruence |]. intros _. split; [reflexivity | reflexivity].
  - split; [congruence |]. intros _. split; [exact Hf |].
    intros other Hne. rewrite Hc. now apply lookup_insert_ne.
  - split.
    + intros _. split; [reflexivity |].
      rewrite save_history_file, Hd, Hf. reflexivity.
    + cbn. discriminate.
  - split; [cbn; congruence |]. intros _. split; [exact Hf |].
    intros other Hne. rewrite Hc. now apply lookup_insert_ne.
Qed.

Lemma request_hook_saves_exactly_when_it_stops_witness :
  (interest_analyzer (L := reference_lib) (Demo.cfg 20 None)
     (Demo.ctx Demo.approve) (1 # 2) (Demo.ev "g1" false)
     (Demo.req (Some "hello")) Demo.store).1.1.(history_file)
  = None.
Proof.
  refine (proj1 (proj2 (request_hook_saves_exactly_when_it_stops reference_lib
                          (Demo.cfg 20 None) (Demo.ctx Demo.approve) (1 # 2)
                          (Demo.ev "g1" false) (Demo.req (Some "hello")) Demo.store
                          _) _)).
  - reflexivity.
  - vm_compute. reflexivity.
Defined.

Lemma most_recent_app {A} (n : nat) (l k : list A) :
  (length k <= n)%nat ->
  Spec.most_recent n (l ++ k) = Spec.most_recent (n - length k) l ++ k.
Proof.
  intros Hk. unfold Spec.most_recent. rewrite length_app.
  rewrite drop_app_le by lia. f_equal. f_equal. lia.
Qed.

(** X9. [save_llm_reply_to_history], lines 163-185: for an allow-listed
    subject an empty reply changes nothing; a reply that is not empty is
    appended as an assistant turn, carrying the event's emotion data only
    when recording is switched on, and then saved: with a positive cap it
    is the last turn of the session's log, and the file of a disk that
    can be written holds what the write of the cache leaves, its document
    or nothing when the document cannot be encoded. *)
Theorem reply_is_recorded_last (L : PyLib) (cfg : config) (ev : event)
    (resp : response) (w : world) :
  whitelisted cfg ev = true ->
  let session_id := unified_msg_origin ev in
  let out := save_llm_reply_to_history cfg ev resp w in
  (completion_text resp = EmptyString -> out = w)
  /\ (completion_text resp <> EmptyString ->
      0 < default 20 (history_max_length cfg) ->
      last (read_log session_id out)
      = Some {| role := "assistant";
                sender_id := None;
                sender_name := None;
                content := completion_text resp;
                state := if default false (record_emotion_in_history cfg)
                         then pic_emotion_data ev else None |}
      /\ history_file out
         = (if disk_ok w
            then Some (Py.write_utf8
                         (json_dumps (Doc.json_of_history (history_cache out))))
            else history_file w)).
Proof.
  intros Hw session_id out. subst out. unfold save_llm_reply_to_history.
  rewrite Hw. cbn [negb]. fold session_id. split.
  - intros ->. reflexivity.
  - intros Hne Hcap.
    destruct (completion_text resp) as [| c t] eqn:E; [contradiction |].
    cbn [Py.truthy_str]. split.
    + unfold read_log. rewrite save_history_cache, lookup_fmap.
      unfold append_turn. cbn [history_cache emit with_cache].
      rewrite lookup_insert_eq. cbn.
      rewrite slice_from_neg by exact Hcap.
      rewrite most_recent_app by (simpl; lia). apply last_snoc.
    + rewrite save_history_file. reflexivity.
Qed.

Lemma reply_is_recorded_last_witness :
  last
    (read_log Demo.sid
       (save_llm_reply_to_history (L := reference_lib) (Demo.cfg 2 None)
          (Demo.ev "g1" false) (Response "four") Demo.store))
  = Some (Turn "assistant" None None "four" None).
Proof.
  refine (proj1 (proj2 (reply_is_recorded_last reference_lib (Demo.cfg 2 None)
                          (Demo.ev "g1" false) (Response "four") Demo.store _) _ _)).
  - vm_compute. reflexivity.
  - discriminate.
  - reflexivity.
Defined.

(** X10. [interest_analyzer], line 134: [should_reply] is read by its
    truth value with [True] as the default. A verdict without the key, or
    with a string that is not empty (the text false included), counts as
    an approval and goes on to the random gate; [false], [null], zero, the
    empty string, the empty list and the empty dict stop the event
    whatever the draw. *)
Theorem should_reply_is_read_by_truthiness (L : PyLib) (cfg : config) (draw : Q)
    (ev : event) (req : request) (w : world) (response_text : string)
    (analysis_result : list (string * jvalue)) :
  parse_verdict response_text = Some analysis_result ->
  let out := apply_verdict cfg draw ev req w response_text in
  ((Json.get "should_reply" analysis_result = None
    \/ exists c s, Json.get "should_reply" analysis_result = Some (JStr (String c s))) ->
   Qgtb draw (default 1%Q (random_reply_chance cfg)) = false ->
   is_stopped out.1.2 = is_stopped ev /\ out.1.1 = w /\ is_Some (prompt out.2))
  /\ ((exists v, Json.get "should_reply" analysis_result = Some v
                 /\ (v = JBool false \/ v = JNull \/ v = JInt 0
                     \/ v = JStr EmptyString \/ v = JArr [] \/ v = JObj [])) ->
      out = (_save_history cfg w, stop_event ev, req)).
Proof.
  intros Hparse out. subst out. unfold apply_verdict. rewrite Hparse. split.
  - intros Hkey Hdraw.
    assert (Ht : Json.truthy
                   (Json.get_default "should_reply" (JBool true) analysis_result) = true).
    { unfold Json.get_default. destruct Hkey as [-> | (c & s & ->)]; reflexivity. }
    rewrite Ht, Hdraw. cbn. eauto.
  - intros (v & Hv & Hcases).
    assert (Ht : Json.truthy
                   (Json.get_default "should_reply" (JBool true) analysis_result) = false).
    { unfold Json.get_default. rewrite Hv.
      destruct Hcases as [-> | [-> | [-> | [-> | [-> | ->]]]]]; reflexivity. }
    rewrite Ht. reflexivity.
Qed.

Lemma should_reply_is_read_by_truthiness_witness :
  is_stopped
    (apply_verdict (L := reference_lib) (Demo.cfg 20 None) (1 # 2)
       (Demo.ev "g1" false) (Demo.req (Some "hello")) Demo.store
       ("{" +:+ Demo.q "should_reply" +:+ ": " +:+ Demo.q "false" +:+ "}")).1.2
  = false.
Proof.
  refine (proj1 (proj1 (should_reply_is_read_by_truthiness reference_lib
                          (Demo.cfg 20 None) (1 # 2) (Demo.ev "g1" false)
                          (Demo.req (Some "hello")) Demo.store
                          ("{" +:+ Demo.q "should_reply" +:+ ": " +:+ Demo.q "false" +:+ "}")
                          [("should_reply", JStr "false")] _) _ _)).
  - vm_compute. reflexivity.
  - right. eexists _, _. vm_compute. reflexivity.
  - reflexivity.
Defined.

(** X11. [interest_analyzer] followed by [save_llm_reply_to_history]: when
    the classifier approves, the draw passes, emotion recording is on and
    the cap is at least two, a reply that is not empty leaves the session's
    log ending with the user's turn followed by the assistant's turn, which
    carries the interest and feeling of the verdict. *)
Theorem approved_exchange_is_recorded (L : PyLib) (cfg : config) (ctx : context)
    (draw : Q) (ev : event) (req : request) (w : world)
    (analysis_provider : provider) (template response_text reply : string)
    (analysis_result : list (string * jvalue)) :
  active_provider cfg ctx ev = Some analysis_provider ->
  analysis_system_prompt cfg = Some template ->
  analysis_provider (analysis_prompt_for ctx ev req w template) = Some response_text ->
  parse_verdict response_text = Some analysis_result ->
  Json.truthy (Json.get_default "should_reply" (JBool true) analysis_result) = true ->
  Qgtb draw (default 1%Q (random_reply_chance cfg)) = false ->
  record_emotion_in_history cfg = Some true ->
  2 <= default 20 (history_max_length cfg) ->
  reply <> EmptyString ->
  let session_id := unified_msg_origin ev in
  let out := interest_analyzer cfg ctx draw ev req w in
  let after := save_llm_reply_to_history cfg out.1.2 (Response reply) out.1.1 in
  exists earlier,
    read_log session_id after
    = earlier
      ++ [user_history_entry ev req;
          {| role := "assistant"; sender_id := None; sender_name := None;
             content := reply;
             state :=
               Some {| interest := Json.get_default "interest" (JStr "normal") analysis_result;
                       feeling := Json.get_default "feeling" (JStr "neutral") analysis_result |}
          |}].
Proof.
  intros Hact Htpl Hans Hparse Hreply Hdraw Hrec Hcap Hne session_id out after.
  subst after out.
  rewrite (interest_analyzer_calls cfg ctx draw ev req w _ _ Hact Htpl), Hans.
  unfold apply_verdict. rewrite Hparse, Hreply, Hdraw. cbn [negb fst snd].
  unfold save_llm_reply_to_history.
  change (whitelisted cfg (set_extra _ ev)) with (whitelisted cfg ev).
  rewrite (active_provider_whitelisted cfg ctx ev _ Hact). cbn [negb completion_text].
  destruct reply as [| c t]; [contradiction |]. cbn [Py.truthy_str].
  rewrite Hrec. cbn [default from_option pic_emotion_data set_extra unified_msg_origin].
  fold session_id.
  unfold read_log. rewrite save_history_cache, lookup_fmap.
  unfold append_turn at 1. cbn [history_cache emit with_cache].
  rewrite lookup_insert_eq.
  fold (read_log session_id (world_at_call ctx ev req w template)).
  subst session_id. rewrite world_at_call_log. cbn [fmap option_fmap option_map default from_option].
  rewrite slice_from_neg by lia. rewrite <- app_assoc. cbn [app].
  rewrite most_recent_app by (simpl; lia).
  eexists. reflexivity.
Qed.

Lemma approved_exchange_is_recorded_witness :
  exists earlier,
    read_log Demo.sid
      (save_llm_reply_to_history (L := reference_lib) (Demo.cfg 20 None)
         (interest_analyzer (L := reference_lib) (Demo.cfg 20 None)
            (Demo.ctx Demo.approve) (1 # 2) (Demo.ev "g1" false)
            (Demo.req (Some "hello")) Demo.store).1.2
         (Response "hi there")
         (interest_analyzer (L := reference_lib) (Demo.cfg 20 None)
            (Demo.ctx Demo.approve) (1 # 2) (Demo.ev "g1" false)
            (Demo.req (Some "hello")) Demo.store).1.1)
    = earlier ++ [Demo.user_turn "hello"; Demo.bot_turn "hi there"].
Proof.
  apply (approved_exchange_is_recorded reference_lib (Demo.cfg 20 None)
           (Demo.ctx Demo.approve) (1 # 2) (Demo.ev "g1" false)
           (Demo.req (Some "hello")) Demo.store (fun _ => Some Demo.approve)
           "{awakening_context}/{persona}/{history}/{current_message}"
           Demo.approve "hi there"
           [("should_reply", JBool true); ("interest", JStr "high");
            ("feeling", JStr "curious")]).
  - vm_compute. reflexivity.
  - reflexivity.
  - reflexivity.
  - vm_compute. reflexivity.
  - reflexivity.
  - reflexivity.
  - reflexivity.
  - vm_compute. discriminate.
  - discriminate.
Defined.

(** ** The persona, the rendering and the view *)

(** X12. [_get_current_persona_prompt] with line 90: with no current
    conversation, an empty conversation id, a conversation the host does
    not find, or the marker [[%None]] as persona id, the lookup gives the
    empty string, whatever personas and default persona exist, and the
    description used for the prompt is the request's system prompt. *)
Theorem no_persona_falls_back_to_system_prompt (ctx : context) (ev : event)
    (req : request) :
  let uid := unified_msg_origin ev in
  get_curr_conversation_id ctx uid = None
  \/ get_curr_conversation_id ctx uid = Some EmptyString
  \/ (exists cid, get_curr_conversation_id ctx uid = Some cid
                  /\ (get_conversation ctx uid cid = None
                      \/ get_conversation ctx uid cid
                         = Some (Conversation (Some "[%None]")))) ->
  _get_current_persona_prompt ctx ev = EmptyString
  /\ Py.or_str (_get_current_persona_prompt ctx ev) (system_prompt req)
     = system_prompt req.
Proof.
  intros uid H.
  assert (E : _get_current_persona_prompt ctx ev = EmptyString).
  { unfold _get_current_persona_prompt. fold uid.
    destruct H as [-> | [-> | (cid & -> & [-> | ->])]]; try reflexivity;
      destruct (Py.truthy_str cid); reflexivity. }
  split; [exact E | rewrite E; reflexivity].
Qed.

Lemma no_persona_falls_back_to_system_prompt_witness :
  Py.or_str
    (_get_current_persona_prompt
       (MkContext (fun _ => Some "c1")
          (fun _ _ => Some (Conversation (Some "[%None]")))
          (Some "tutor") [Persona (Some "tutor") (Some "You are a patient tutor.")]
          (fun _ => None))
       (Demo.ev "g1" false))
    (system_prompt (Demo.req None))
  = "Be kind.".
Proof.
  apply (no_persona_falls_back_to_system_prompt
           (MkContext (fun _ => Some "c1")
              (fun _ _ => Some (Conversation (Some "[%None]")))
              (Some "tutor") [Persona (Some "tutor") (Some "You are a patient tutor.")]
              (fun _ => None))
           (Demo.ev "g1" false) (Demo.req None)).
  right. right. exists "c1". split; [reflexivity | right; reflexivity].
Defined.

(** X13. [_get_current_persona_prompt], lines 61-73: a conversation with
    a persona id other than the marker gets the prompt of the first
    persona of that name, and the default persona is not consulted; a
    conversation with no persona id, or an empty one, gets the prompt of
    the first persona named as the default. *)
Theorem persona_prompt_of_first_match (ctx : context) (ev : event) (cid : string)
    (conv : conversation) (name text : string) (before after : list persona) :
  let uid := unified_msg_origin ev in
  get_curr_conversation_id ctx uid = Some cid -> cid <> EmptyString ->
  get_conversation ctx uid cid = Some conv ->
  name <> EmptyString ->
  (persona_id conv = Some name /\ name <> "[%None]")
  \/ ((persona_id conv = None \/ persona_id conv = Some EmptyString)
      /\ selected_default_persona ctx = Some name) ->
  personas ctx = before ++ Persona (Some name) (Some text) :: after ->
  Forall (fun p => persona_name p <> Some name) before ->
  _get_current_persona_prompt ctx ev = text.
Proof.
  intros uid Hcid Hne Hconv Hname Hid Hps Hbefore.
  assert (Hfind : List.find (fun p => bool_decide (persona_name p = Some name))
                    (personas ctx)
                  = Some (Persona (Some name) (Some text))).
  { rewrite Hps. clear Hps. induction Hbefore as [| p l Hp _ IH]; simpl.
    - rewrite bool_decide_eq_true_2 by reflexivity. reflexivity.
    - rewrite bool_decide_eq_false_2 by exact Hp. exact IH. }
  assert (Htn : Py.truthy_str name = true) by (destruct name; [contradiction | reflexivity]).
  assert (Htc : Py.truthy_str cid = true) by (destruct cid; [contradiction | reflexivity]).
  unfold _get_current_persona_prompt. fold uid. rewrite Hcid, Htc. cbn [negb].
  rewrite Hconv.
  destruct Hid as [[-> Hmark] | [[-> | ->] ->]].
  - rewrite Htn. destruct (String.eqb_spec name "[%None]"); [contradiction |].
    rewrite Htn. cbn [negb]. rewrite Hfind. reflexivity.
  - rewrite Htn. cbn [negb]. rewrite Hfind. reflexivity.
  - cbn [Py.truthy_str]. rewrite Htn. cbn [negb]. rewrite Hfind. reflexivity.
Qed.

Lemma persona_prompt_of_first_match_witness :
  _get_current_persona_prompt (Demo.ctx Demo.approve) (Demo.ev "g1" false)
  = "You are a patient tutor.".
Proof.
  apply (persona_prompt_of_first_match (Demo.ctx Demo.approve) (Demo.ev "g1" false)
           "c1" (Conversation (Some "tutor")) "tutor" "You are a patient tutor." [] []).
  - reflexivity.
  - discriminate.
  - reflexivity.
  - discriminate.
  - left. split; [reflexivity | discriminate].
  - reflexivity.
  - constructor.
Defined.

Lemma format_history_entry_head (msg : turn) :
  exists c rest, format_history_entry msg = String c rest
                 /\ (c = "u"%char \/ c = "a"%char).
Proof.
  unfold format_history_entry. destruct (String.eqb (role msg) "user").
  - eexists _, _. split; [reflexivity | now left].
  - eexists _, _. split; [reflexivity | now right].
Qed.

(** X14. [format_history_entry] and line 110: the text that stands for an
    empty history is used exactly when the history is empty; a history
    with a turn is rendered starting with that turn, never as the
    sentinel. *)
Theorem format_history_sentinel (history : list turn) :
  format_history history = "No previous conversation history." <-> history = [].
Proof.
  split; [| intros ->; reflexivity].
  destruct history as [| msg rest]; [reflexivity |]. intros H. exfalso.
  destruct (format_history_entry_head msg) as (c & t & E & Hc).
  unfold format_history in H.
  assert (Hj : exists t', Py.join nl (map format_history_entry (msg :: rest)) = String c t').
  { destruct rest as [| m2 rest].
    - exists t. exact E.
    - eexists. rewrite join_map_cons2, E, str_app_cons. reflexivity. }
  destruct Hj as (t' & Hj). rewrite Hj in H. cbn [Py.or_str Py.truthy_str] in H.
  destruct Hc as [-> | ->]; discriminate H.
Qed.

(** X15. [view_history], lines 192-213: viewing changes neither the cache
    nor the file, and it answers that there is no history exactly when
    the session has no log or an empty one. *)
Theorem view_history_is_read_only (L : PyLib) (ev : event) (w : world) :
  history_cache (view_history ev w).1 = history_cache w
  /\ history_file (view_history ev w).1 = history_file w
  /\ ((view_history ev w).2 = msg_no_history
      <-> default [] (history_cache w !! unified_msg_origin ev) = []).
Proof.
  unfold view_history, read_log.
  destruct (default [] (history_cache w !! unified_msg_origin ev)) as [| msg rest];
    cbn [fst snd].
  - split; [reflexivity |]. split; [reflexivity |]. tauto.
  - split; [reflexivity |]. split; [reflexivity |].
    split; [| discriminate]. intros H. exfalso.
    rewrite str_app_cons in H. discriminate H.
Qed.

(** ** The pattern *)

Lemma match_rest_closed (x : string) :
  Re.match_rest (x +:+ "}") = Some (x +:+ "}").
Proof.
  induction x as [| c x IH]; [reflexivity |].
  rewrite str_app_cons. simpl. rewrite IH. reflexivity.
Qed.

Lemma match_rest_shape (t m : string) :
  Re.match_rest t = Some m ->
  exists body after,
    m = body +:+ "}" /\ t = m +:+ after
    /\ Spec.last_index Re.rbrace after = None.
Proof.
  revert m. induction t as [| c t IH]; intros m; simpl; [discriminate |].
  destruct (Re.match_rest t) as [m' |] eqn:E.
  - intros [= <-]. destruct (IH m' eq_refl) as (body & after & -> & Ht & Hafter).
    exists (String c body), after. rewrite !str_app_cons. rewrite Ht at 1.
    auto.
  - destruct (Ascii.eqb_spec c Re.rbrace) as [-> | _]; [| discriminate].
    intros [= <-]. exists EmptyString, t. split; [reflexivity |].
    split; [reflexivity |].
    rewrite match_rest_last in E.
    destruct (Spec.last_index Re.rbrace t); [discriminate | reflexivity].
Qed.

(** X16. [interest_analyzer], lines 128-131: when the pattern matches,
    the text decoded starts with an opening brace and ends with a closing
    one, it sits in the answer after a part with no opening brace and
    before a part with no closing brace, and searching it again gives it
    back. *)
Theorem search_match_shape (s m : string) :
  Re.search s = Some m ->
  exists before body after,
    m = "{" +:+ body +:+ "}"
    /\ s = before +:+ m +:+ after
    /\ Spec.first_index "{" before = None
    /\ Spec.last_index "}" after = None
    /\ Re.search m = Some m.
Proof.
  revert m. induction s as [| c t IH]; intros m; simpl; [discriminate |].
  destruct (Ascii.eqb_spec c Re.lbrace) as [-> | Hc].
  - destruct (Re.match_rest t) as [m' |] eqn:E.
    + intros [= <-]. destruct (match_rest_shape t m' E) as (body & after & -> & Ht & Hafter).
      exists EmptyString, body, after.
      split; [reflexivity |]. split; [rewrite str_app_nil, str_app_cons, Ht at 1; reflexivity |].
      split; [reflexivity |]. split; [exact Hafter |].
      simpl. rewrite match_rest_closed. reflexivity.
    + intros H. rewrite search_none_without_close in H; [discriminate |].
      rewrite match_rest_last in E.
      destruct (Spec.last_index Re.rbrace t); [discriminate | reflexivity].
  - intros H. destruct (IH m H) as (before & body & after & -> & Ht & Hb & Ha & Hs).
    exists (String c before), body, after.
    split; [reflexivity |]. split; [rewrite str_app_cons; now f_equal |].
    split; [| split; [exact Ha | exact Hs]].
    simpl. destruct (Ascii.eqb_spec c "{"); [contradiction |].
    change "{"%char with Re.lbrace in Hb |- *. now rewrite Hb.
Qed.

Lemma search_match_shape_witness :
  exists before body after,
    "{a: 1}" = "{" +:+ body +:+ "}"
    /\ "so {a: 1} it is" = before +:+ "{a: 1}" +:+ after
    /\ Spec.first_index "{" before = None
    /\ Spec.last_index "}" after = None
    /\ Re.search "{a: 1}" = Some "{a: 1}".
Proof.
  apply (search_match_shape "so {a: 1} it is" "{a: 1}"). reflexivity.
Defined.

Lemma replace_from_step (old new : string) (c : ascii) (t : string) :
  Py.replace_from old new O (String c t)
  = if Py.startswith old (String c t)
    then new +:+ Py.replace_from old new (Nat.pred (String.length old)) t
    else String c (Py.replace_from old new O t).
Proof. reflexivity. Qed.

Lemma startswith_step (a : ascii) (p : string) (b : ascii) (s : string) :
  Py.startswith (String a p) (String b s)
  = if Ascii.eqb a b then Py.startswith p s else false.
Proof. reflexivity. Qed.

Lemma replace_without_brace (old' new s : string) :
  Spec.first_index "{" s = None ->
  Py.replace_from (String "{" old') new O s = s.
Proof.
  induction s as [| c t IH]; [reflexivity |].
  cbn [Spec.first_index]. rewrite replace_from_step, startswith_step.
  destruct (Ascii.eqb_spec c "{") as [-> | Hc]; [discriminate |].
  intros H. destruct (Spec.first_index "{" t); [discriminate |].
  destruct (Ascii.eqb_spec "{" c) as [<- | _]; [contradiction |].
  rewrite IH by reflexivity. reflexivity.
Qed.

(** X17. [interest_analyzer], lines 119-123: a template with no opening
    brace has no placeholder, and the prompt sent is the template itself:
    neither the persona, nor the history, nor the current message is in
    it. *)
Theorem template_without_placeholder_is_sent_as_is
    (template awakening persona_description formatted_history
       current_message_for_analysis : string) :
  Spec.first_index "{" template = None ->
  render_prompt template awakening persona_description formatted_history
    current_message_for_analysis
  = template.
Proof.
  intros H. unfold render_prompt, Py.replace.
  rewrite (replace_without_brace _ awakening template H).
  rewrite (replace_without_brace _ persona_description template H).
  rewrite (replace_without_brace _ formatted_history template H).
  apply (replace_without_brace _ current_message_for_analysis template H).
Qed.

Lemma template_without_placeholder_is_sent_as_is_witness :
  render_prompt "Should I answer?" "ctx" "persona" "history" "message"
  = "Should I answer?".
Proof.
  apply template_without_placeholder_is_sent_as_is. reflexivity.
Defined.

(** ** Failures and defaults *)

(** X18. [interest_analyzer], lines 118-126 and 160-161: when the template
    is missing from the configuration or the provider call raises, the
    error is swallowed: the request and the event are as they were, the
    user's turn appended before the attempt stays in the log, and the file
    is not written. *)
Theorem provider_failure_is_swallowed (L : PyLib) (cfg : config) (ctx : context)
    (draw : Q) (ev : event) (req : request) (w : world)
    (analysis_provider : provider) :
  active_provider cfg ctx ev = Some analysis_provider ->
  analysis_system_prompt cfg = None
  \/ (exists template,
        analysis_system_prompt cfg = Some template
        /\ analysis_provider (analysis_prompt_for ctx ev req w template) = None) ->
  let session_id := unified_msg_origin ev in
  let out := interest_analyzer cfg ctx draw ev req w in
  out.2 = req
  /\ out.1.2 = ev
  /\ read_log session_id out.1.1 = read_log session_id w ++ [user_history_entry ev req]
  /\ history_file out.1.1 = history_file w.
Proof.
  intros Hact H session_id out. subst out.
  destruct H as [Htpl | (template & Htpl & Hraise)].
  - rewrite (interest_analyzer_no_template cfg ctx draw ev req w _ Hact Htpl).
    cbn [fst snd]. split; [reflexivity |]. split; [reflexivity |].
    split; [| reflexivity].
    unfold read_log. cbn [history_cache emit]. apply append_turn_log.
  - rewrite (interest_analyzer_calls cfg ctx draw ev req w _ _ Hact Htpl), Hraise.
    cbn [fst snd]. split; [reflexivity |]. split; [reflexivity |].
    split; [apply world_at_call_log | reflexivity].
Qed.

Lemma provider_failure_is_swallowed_witness :
  (interest_analyzer (L := reference_lib)
     (Config (Some ["g1"]) (Some "judge") None None None None)
     (Demo.ctx Demo.approve) (1 # 2) (Demo.ev "g1" false)
     (Demo.req (Some "hello")) Demo.store).2
  = Demo.req (Some "hello").
Proof.
  apply (provider_failure_is_swallowed reference_lib
           (Config (Some ["g1"]) (Some "judge") None None None None)
           (Demo.ctx Demo.approve) (1 # 2) (Demo.ev "g1" false)
           (Demo.req (Some "hello")) Demo.store (fun _ => Some Demo.approve)).
  - vm_compute. reflexivity.
  - left. reflexivity.
Defined.

(** X19. [interest_analyzer] and [save_llm_reply_to_history], lines 79 and
    166: the allow-list defaults to the empty list, so with no
    [whitelist] in the configuration, or an empty one, neither hook does
    anything for any event. *)
Theorem missing_whitelist_disables_the_plugin (L : PyLib) (cfg : config)
    (ctx : context) (draw : Q) (ev : event) (req : request) (resp : response)
    (w : world) :
  whitelist cfg = None \/ whitelist cfg = Some [] ->
  interest_analyzer cfg ctx draw ev req w = (w, ev, req)
  /\ save_llm_reply_to_history cfg ev resp w = w.
Proof.
  intros H.
  assert (Hw : whitelisted cfg ev = false).
  { unfold whitelisted. apply bool_decide_eq_false.
    destruct H as [-> | ->]; cbn; apply not_elem_of_nil. }
  split.
  - apply interest_analyzer_inactive. unfold active_provider. now rewrite Hw.
  - unfold save_llm_reply_to_history. now rewrite Hw.
Qed.

Lemma missing_whitelist_disables_the_plugin_witness :
  save_llm_reply_to_history (L := reference_lib)
    (Config None (Some "judge") (Some "{history}") None None None)
    (Demo.ev "g1" false) (Response "hi") Demo.store
  = Demo.store.
Proof.
  apply (missing_whitelist_disables_the_plugin reference_lib
           (Config None (Some "judge") (Some "{history}") None None None)
           (Demo.ctx Demo.approve) (1 # 2) (Demo.ev "g1" false)
           (Demo.req None) (Response "hi") Demo.store).
  left. reflexivity.
Defined.

(** X20. [clear_history] followed by [interest_analyzer]: after the clear
    command the hook analyses the next message of the session with no
    history. Past the gates, the prompt it sends is rendered with the
    text that stands for an empty history, and the session's log it
    leaves holds that message alone, cut by the save when the event is
    stopped. *)
Theorem cleared_session_starts_afresh (L : PyLib) (cfg : config) (ctx : context)
    (draw : Q) (ev : event) (req : request) (w : world)
    (analysis_provider : provider) (template : string) :
  active_provider cfg ctx ev = Some analysis_provider ->
  analysis_system_prompt cfg = Some template ->
  is_stopped ev = false ->
  let session_id := unified_msg_origin ev in
  let entry := user_history_entry ev req in
  let cleared := (clear_history cfg ev w).1 in
  let out := interest_analyzer cfg ctx draw ev req cleared in
  read_log session_id out.1.1
  = (if is_stopped out.1.2
     then Py.slice_from (- default 20 (history_max_length cfg)) [entry]
     else [entry])
  /\ exists rest,
       effects out.1.1
       = effects cleared
         ++ [CacheAppend session_id; CacheRead session_id;
             ProviderCall
               (render_prompt template (awakening_context_str ev)
                  (Py.or_str (_get_current_persona_prompt ctx ev) (system_prompt req))
                  "No previous conversation history."
                  (format_history_entry entry))]
         ++ rest.
Proof.
  intros Hact Htpl Hrun session_id entry cleared out.
  assert (Hlog : read_log session_id cleared = []).
  { subst cleared. unfold clear_history. fold session_id.
    change (history_cache (emit (CacheRead session_id) w)) with (history_cache w).
    destruct (history_cache w !! session_id) as [log |] eqn:E; cbn [fst].
    - unfold read_log.
      rewrite (proj2 (save_history_sessions cfg _ session_id)); [reflexivity |].
      apply lookup_delete_eq.
    - unfold read_log. cbn [history_cache emit]. now rewrite E. }
  destruct (interest_analyzer_past_gates cfg ctx draw ev req cleared _ _ Hact Htpl Hrun)
    as [Hcache Heff].
  fold session_id entry out in Hcache, Heff. rewrite Hlog in Hcache, Heff.
  split; [| eexists; exact Heff].
  unfold read_log at 1. rewrite Hcache.
  destruct (is_stopped out.1.2).
  - rewrite lookup_fmap, lookup_insert_eq. reflexivity.
  - rewrite lookup_insert_eq. reflexivity.
Qed.

Lemma cleared_session_starts_afresh_witness :
  read_log Demo.sid
    (interest_analyzer (L := reference_lib) (Demo.cfg 20 None)
       (Demo.ctx Demo.approve) (1 # 2) (Demo.ev "g1" false) (Demo.req (Some "four"))
       (clear_history (L := reference_lib) (Demo.cfg 20 None) (Demo.ev "g1" false)
          Demo.store).1).1.1
  = [Demo.user_turn "four"]
  /\ exists rest,
       effects
         (interest_analyzer (L := reference_lib) (Demo.cfg 20 None)
            (Demo.ctx Demo.approve) (1 # 2) (Demo.ev "g1" false)
            (Demo.req (Some "four"))
            (clear_history (L := reference_lib) (Demo.cfg 20 None)
               (Demo.ev "g1" false) Demo.store).1).1.1
       = [CacheRead Demo.sid; CacheDelete Demo.sid;
          LockAcquire; CacheTrim; FileWrite; LockRelease;
          CacheAppend Demo.sid; CacheRead Demo.sid;
          ProviderCall
            ("/You are a patient tutor./No previous conversation history./"
             +:+ "user (Ann/u1): four")]
         ++ rest.
Proof.
  pose proof (cleared_session_starts_afresh reference_lib (Demo.cfg 20 None)
                (Demo.ctx Demo.approve) (1 # 2) (Demo.ev "g1" false)
                (Demo.req (Some "four")) Demo.store (fun _ => Some Demo.approve)
                "{awakening_context}/{persona}/{history}/{current_message}") as H.
  destruct H as (Hlog & rest & Heff).
  - vm_compute. reflexivity.
  - reflexivity.
  - reflexivity.
  - split.
    + etransitivity; [apply Hlog | vm_compute; reflexivity].
    + exists rest. etransitivity; [apply Heff | vm_compute; reflexivity].
Defined.
